(** * tap_paypal.sync: the stream driver and the record handler

    A shallow embedding of [src/tap_paypal/sync.py].  The two functions of the
    module, [sync] and [sync_record], mutate one state dictionary, call into
    the singer library, into [tap_paypal.tools], into the PayPal client and
    read the wall clock.  They are embedded in a small monad that threads the
    state, may raise a Python exception, and logs the calls made to these
    collaborators, in the order in which they are made.  The calls to the
    logger are left out. *)

From Stdlib Require Import ZArith.
From stdpp Require Import gmap strings list fin_maps.

#[local] Set Warnings "-register-all".

Local Open Scope string_scope.
Local Open Scope list_scope.
Local Open Scope Z_scope.

(** ** Python values *)

(** The JSON-like values found in rows, schemas, bookmarks and keyword
    arguments.  A dictionary keeps its items in insertion order. *)
Inductive pyval : Type :=
| PNone
| PBool (b : bool)
| PInt (z : Z)
| PStr (s : string)
| PList (l : list pyval)
| PDict (d : list (string * pyval)).

(** Python's truth test, the one [if bookmark:] applies. *)
Definition truthy (v : pyval) : bool :=
  match v with
  | PNone => false
  | PBool b => b
  | PInt z => negb (z =? 0)
  | PStr s => negb (String.eqb s "")
  | PList l => match l with [] => false | _ :: _ => true end
  | PDict d => match d with [] => false | _ :: _ => true end
  end.

(** [d.get(k)] on the items of a dictionary. *)
Fixpoint dict_get (k : string) (d : list (string * pyval)) : option pyval :=
  match d with
  | [] => None
  | (k', v) :: rest => if String.eqb k k' then Some v else dict_get k rest
  end.

(** ** Data model *)

(** A row is a [dict]: one fetched record. *)
Definition row : Type := list (string * pyval).

(** The tap state: [state['bookmarks'][stream][field]] and
    [state['currently_syncing']].  A missing ['bookmarks'] key reads as the
    empty mapping, a missing ['currently_syncing'] key as [None], which is how
    singer's accessors read them. *)
Record tap_state : Type := mk_state {
  bookmarks : gmap string (gmap string pyval);
  currently_syncing : option string
}.

(** [singer.catalog.CatalogEntry], the fields [sync.py] reads.  [schema] is
    the value of [stream.schema.to_dict()].  The replication key is a field
    path; it is kept as the sequence of the field names it goes through
    (empty for a stream without a replication key), the spec does not fix
    how the path is written in one string. *)
Record CatalogEntry : Type := mk_entry {
  tap_stream_id : string;
  schema : pyval;
  key_properties : list string;
  replication_key : list string
}.

(** [singer.catalog.Catalog]: [sync] only asks it for the selected streams,
    given the state. *)
Record Catalog : Type := mk_catalog {
  get_selected_streams : tap_state -> list CatalogEntry
}.

(** Modelled from the spec: [tap_paypal.streams.STREAMS] is not under src/.
    It is the static registry that maps a stream identifier to its metadata,
    of which [sync.py] reads the ['bookmark'] entry: the name of the field of
    the state that holds the stream's bookmark. *)
Record stream_info : Type := mk_info {
  bookmark : string
}.

(** The exceptions a run of [sync.py] can end with: the two it raises
    itself, the [TypeError] of a call whose arguments do not bind to the
    parameters of the method called, and the errors raised inside the client
    (network, pagination), which it does not catch. *)
Inductive exn : Type :=
| AttributeError (name : string)
| KeyError (key : string)
| TypeError (callee : string)
| ClientError (msg : string).

(** What a generator of rows does when the [for] loop runs it: it yields
    finitely many rows, then ends or raises. *)
Record generator : Type := mk_gen {
  yields : list row;
  ends_with : option exn
}.

(** Modelled from the spec: [tap_paypal.paypal.PayPal] is not under src/.
    The client has one fetch method per stream identifier.  [sync] calls a
    method as [method(catchup_days, schemaless, **stream_state)]: [accepts]
    tells whether keyword arguments bind to the parameters of the method next
    to the two positional ones (the call raises [TypeError] when they do
    not), [generate] what the generator that the call returns does. *)
Record fetch_method : Type := mk_fetch {
  accepts : gmap string pyval -> bool;
  generate : Z -> bool -> gmap string pyval -> generator
}.

Abbreviation PayPal := (gmap string fetch_method).

(** Modelled from the spec: the signature the spec gives the fetch methods,
    [(catchup_days, schemaless, **kwargs)].  Every keyword binds but the
    names of the two positional parameters, which are given already. *)
Definition spec_signature (kwargs : gmap string pyval) : bool :=
  match kwargs !! "catchup_days", kwargs !! "schemaless" with
  | None, None => true
  | _, _ => false
  end.

(** [singer.catalog.Catalog] as the singer library has it: the entries in
    catalog order, and [CatalogEntry.is_selected()].  The library is not part
    of the repository. *)
Record SingerCatalog : Type := mk_singer_catalog {
  entries : list CatalogEntry;
  is_selected : CatalogEntry -> bool
}.

(** The index of the first entry with that identifier. *)
Fixpoint index_of (id : string) (l : list CatalogEntry) : option nat :=
  match l with
  | [] => None
  | e :: rest =>
      if String.eqb (tap_stream_id e) id then Some 0%nat
      else S <$> index_of id rest
  end.

(** singer's [Catalog._shuffle_streams(state)]: when the state names a
    currently-syncing stream, the entries from the first one of that
    identifier on ([streams[matching_index:]]), then the ones before it
    ([streams[:matching_index]]); [matching_index] stays 0 when no entry has
    that identifier. *)
Definition shuffle_streams (c : SingerCatalog) (st : tap_state)
  : list CatalogEntry :=
  match currently_syncing st with
  | None => entries c
  | Some id =>
      let matching_index := default 0%nat (index_of id (entries c)) in
      drop matching_index (entries c) ++ take matching_index (entries c)
  end.

(** singer's [Catalog.get_selected_streams(state)]: the shuffled entries
    that are selected. *)
Definition singer_selected_streams (c : SingerCatalog) (st : tap_state)
  : list CatalogEntry :=
  List.filter (is_selected c) (shuffle_streams c st).

Definition singer_catalog (c : SingerCatalog) : Catalog :=
  mk_catalog (singer_selected_streams c).

(** One entry of the call log: a call from [sync.py] into a collaborator,
    with its arguments (the state argument is the current state). *)
Inductive event : Type :=
| EGetSelectedStreams
| ESetCurrentlySyncing (id : string)
| EGetStreamState (start_date : string) (id : string)
| EWriteSchema (id : string) (sch : pyval) (keys : list string)
| EGetattr (id : string)
| ECall (id : string) (catchup_days : Z) (schemaless : bool)
        (kwargs : gmap string pyval)
| EYield (id : string) (r : row)
| ERetrieveBookmark (path : list string) (r : row)
| ENow (t : Z)
| EWriteRecord (id : string) (r : row) (time_extracted : Z)
| EWriteBookmark (id : string) (field : string) (v : pyval)
| EClearCurrentlySyncing
| EWriteState (st : tap_state).

(** ** The monad *)

(** What the code runs in: the state dictionary and the wall clock, given by
    the readings it will return, [clock 0] being the next one. *)
Record world : Type := mk_world {
  state : tap_state;
  clock : nat -> Z
}.

Inductive outcome (A : Type) : Type :=
| Ret (a : A)
| Raise (e : exn).
Arguments Ret {A} a.
Arguments Raise {A} e.

(** A run: how it ended, the world it left, the calls it made. *)
Record Run (A : Type) : Type := mk_run {
  result : outcome A;
  after : world;
  calls : list event
}.
Arguments mk_run {A} _ _ _.
Arguments result {A} _.
Arguments after {A} _.
Arguments calls {A} _.

(** The run [r], after the calls [l] have been made. *)
Definition preceded_by {A : Type} (l : list event) (r : Run A) : Run A :=
  mk_run (result r) (after r) (l ++ calls r).

Definition M (A : Type) : Type := world -> Run A.

Definition ret {A : Type} (a : A) : M A :=
  fun w => mk_run (Ret a) w [].

Definition bind {A B : Type} (m : M A) (f : A -> M B) : M B :=
  fun w =>
    let r := m w in
    match result r with
    | Ret a =>
        let r' := f a (after r) in
        mk_run (result r') (after r') (calls r ++ calls r')
    | Raise e => mk_run (Raise e) (after r) (calls r)
    end.

Definition raise {A : Type} (e : exn) : M A :=
  fun w => mk_run (Raise e) w [].

Definition emit (e : event) : M unit :=
  fun w => mk_run (Ret tt) w [e].

Definition get_state : M tap_state :=
  fun w => mk_run (Ret (state w)) w [].

Definition modify_state (f : tap_state -> tap_state) : M unit :=
  fun w => mk_run (Ret tt) (mk_world (f (state w)) (clock w)) [].

Declare Scope py_scope.
Delimit Scope py_scope with py.
Notation "x <- m ;; k" := (bind m (fun x => k))
  (at level 100, m at next level, right associativity) : py_scope.
Notation "m ;;; k" := (bind m (fun _ => k))
  (at level 100, right associativity) : py_scope.
Local Open Scope py_scope.

(** A Python [for] loop over a finite sequence: an exception raised by the
    body ends the loop. *)
Fixpoint for_each {A : Type} (l : list A) (body : A -> M unit) : M unit :=
  match l with
  | [] => ret tt
  | x :: rest => body x ;;; for_each rest body
  end.

(** ** The collaborators *)

(** The world once the wall clock has been read. *)
Definition tick (w : world) : world :=
  mk_world (state w) (fun n => clock w (S n)).

(** [datetime.now(timezone.utc)]: the next reading of the wall clock. *)
Definition now : M Z :=
  fun w => mk_run (Ret (clock w 0%nat)) (tick w) [ENow (clock w 0%nat)].

(** singer's [set_currently_syncing]: [state['currently_syncing'] = id]. *)
Definition set_marker (id : string) (st : tap_state) : tap_state :=
  mk_state (bookmarks st) (Some id).

Definition set_currently_syncing (id : string) : M unit :=
  modify_state (set_marker id) ;;; emit (ESetCurrentlySyncing id).

(** singer's [write_bookmark]:
    [state['bookmarks'][id][field] = v], creating the mappings on the way. *)
Definition put_bookmark (id field : string) (v : pyval) (st : tap_state)
  : tap_state :=
  mk_state (<[id := <[field := v]> (default ∅ (bookmarks st !! id))]>
              (bookmarks st))
           (currently_syncing st).

Definition write_bookmark (id field : string) (v : pyval) : M unit :=
  modify_state (put_bookmark id field v) ;;; emit (EWriteBookmark id field v).

(** singer's [write_schema], [write_record] and [write_state] send one
    message each to the output channel; [write_state] sends the state as it
    is when it is called. *)
Definition write_schema (id : string) (sch : pyval) (keys : list string)
  : M unit :=
  emit (EWriteSchema id sch keys).

Definition write_record (id : string) (r : row) (time_extracted : Z)
  : M unit :=
  emit (EWriteRecord id r time_extracted).

Definition write_state : M unit :=
  st <- get_state ;; emit (EWriteState st).

(** Modelled from the spec: [tools.clear_currently_syncing] is not under
    src/.  It clears the currently-syncing marker of the state. *)
Definition clear_marker (st : tap_state) : tap_state :=
  mk_state (bookmarks st) None.

Definition clear_currently_syncing : M unit :=
  modify_state clear_marker ;;; emit EClearCurrentlySyncing.

(** Modelled from the spec: [tools.get_stream_state] is not under src/.
    A pure function of the state, the start date and the stream identifier:
    the stream's bookmark mapping when the state holds one, else the
    configured start date (under the keyword [start_date], the one the
    comment above the fetch call in [sync] names). *)
Definition stream_state_of (st : tap_state) (start_date id : string)
  : gmap string pyval :=
  match bookmarks st !! id with
  | Some b => b
  | None => {[ "start_date" := PStr start_date ]}
  end.

Definition get_stream_state (start_date id : string)
  : M (gmap string pyval) :=
  st <- get_state ;;
  emit (EGetStreamState start_date id) ;;;
  ret (stream_state_of st start_date id).

(** Modelled from the spec: [tools.retrieve_bookmark_with_path] is not under
    src/.  It follows the replication-key path into the row, through nested
    dictionaries, and returns the value found there; a missing or malformed
    path gives [None], never an exception. *)
Fixpoint bookmark_at (path : list string) (d : list (string * pyval))
  : pyval :=
  match path with
  | [] => PNone
  | k :: rest =>
      match dict_get k d with
      | None => PNone
      | Some v =>
          match rest with
          | [] => v
          | _ :: _ =>
              match v with
              | PDict d' => bookmark_at rest d'
              | _ => PNone
              end
          end
      end
  end.

Definition retrieve_bookmark_with_path (path : list string) (r : row)
  : M pyval :=
  emit (ERetrieveBookmark path r) ;;; ret (bookmark_at path r).

(** [getattr(paypal, id)]: the method of that name, or [AttributeError]. *)
Definition getattr (paypal : PayPal) (id : string) : M fetch_method :=
  emit (EGetattr id) ;;;
  match paypal !! id with
  | Some f => ret f
  | None => raise (AttributeError id)
  end.

(** [tap_data(catchup_days, schemaless, **stream_state)]: the call gives the
    generator of the stream's rows, or raises [TypeError] when the keyword
    arguments do not bind. *)
Definition call (id : string) (f : fetch_method) (catchup_days : Z)
  (schemaless : bool) (kwargs : gmap string pyval) : M generator :=
  emit (ECall id catchup_days schemaless kwargs) ;;;
  if accepts f kwargs then ret (generate f catchup_days schemaless kwargs)
  else raise (TypeError id).

(** The [for] loop asks the generator for a row when it has yielded them
    all: the generator ends, or raises. *)
Definition exhausted (gen : generator) : M unit :=
  match ends_with gen with
  | Some e => raise e
  | None => ret tt
  end.

(** The [for] loop pulls the next row out of the generator. *)
Definition yielded (id : string) (r : row) : M unit :=
  emit (EYield id r).

(** [catalog.get_selected_streams(state)]. *)
Definition selected_streams (catalog : Catalog) : M (list CatalogEntry) :=
  st <- get_state ;;
  emit EGetSelectedStreams ;;;
  ret (get_selected_streams catalog st).

(** ** sync.py *)

Section Sync.

(** The registry [tap_paypal.streams.STREAMS]. *)
Variable STREAMS : gmap string stream_info.

(** [STREAMS[id]['bookmark']]: a missing key raises [KeyError]. *)
Definition registry_bookmark (id : string) : M string :=
  match STREAMS !! id with
  | Some info => ret (bookmark info)
  | None => raise (KeyError id)
  end.

(** [sync_record(stream, row, state)], lines 74-108. *)
Definition sync_record (stream : CatalogEntry) (r : row) : M unit :=
  bm <- retrieve_bookmark_with_path (replication_key stream) r ;;
  t <- now ;;
  write_record (tap_stream_id stream) r t ;;;
  if truthy bm then
    field <- registry_bookmark (tap_stream_id stream) ;;
    write_bookmark (tap_stream_id stream) field bm ;;;
    clear_currently_syncing ;;;
    write_state
  else ret tt.

(** The loop over the rows the fetch method yields, lines 70-71. *)
Definition sync_rows (stream : CatalogEntry) (rows : list row) : M unit :=
  for_each rows (fun r =>
    yielded (tap_stream_id stream) r ;;; sync_record stream r).

(** The body of the loop over the selected streams, lines 41-71. *)
Definition sync_stream (paypal : PayPal) (start_date : string)
  (catchup_days : Z) (schemaless : bool) (stream : CatalogEntry) : M unit :=
  set_currently_syncing (tap_stream_id stream) ;;;
  stream_state <- get_stream_state start_date (tap_stream_id stream) ;;
  write_schema (tap_stream_id stream) (schema stream)
               (key_properties stream) ;;;
  tap_data <- getattr paypal (tap_stream_id stream) ;;
  gen <- call (tap_stream_id stream) tap_data catchup_days schemaless
              stream_state ;;
  sync_rows stream (yields gen) ;;;
  exhausted gen.

(** [sync(paypal, state, catalog, start_date, catchup_days, schemaless)],
    lines 17-71.  The calls to the logger are left out. *)
Definition sync (paypal : PayPal) (catalog : Catalog) (start_date : string)
  (catchup_days : Z) (schemaless : bool) : M unit :=
  streams <- selected_streams catalog ;;
  for_each streams (sync_stream paypal start_date catchup_days schemaless).

End Sync.

(** ** Reading the call log *)

(** What one logged call does to the state dictionary. *)
Definition apply_event (st : tap_state) (e : event) : tap_state :=
  match e with
  | ESetCurrentlySyncing id => set_marker id st
  | EWriteBookmark id field v => put_bookmark id field v st
  | EClearCurrentlySyncing => clear_marker st
  | _ => st
  end.

(** The state after a part of the log, from the state before it. *)
Definition replay (st : tap_state) (l : list event) : tap_state :=
  fold_left apply_event l st.

(** [state[id][field]], when the state holds it. *)
Definition get_bookmark (st : tap_state) (id field : string) : option pyval :=
  bookmarks st !! id ≫= fun b => b !! field.

Definition is_set_marker (e : event) : bool :=
  match e with ESetCurrentlySyncing _ => true | _ => false end.

Definition is_schema_of (id : string) (e : event) : bool :=
  match e with EWriteSchema id' _ _ => String.eqb id id' | _ => false end.

Definition is_record_of (id : string) (e : event) : bool :=
  match e with EWriteRecord id' _ _ => String.eqb id id' | _ => false end.

Definition is_state_write (e : event) : bool :=
  match e with
  | EWriteBookmark _ _ _ | EClearCurrentlySyncing | EWriteState _ => true
  | _ => false
  end.

(** The calls the loop over the rows of stream [id] can make. *)
Definition handler_event (id : string) (e : event) : bool :=
  match e with
  | EYield id' _ | EWriteRecord id' _ _ | EWriteBookmark id' _ _ =>
      String.eqb id id'
  | ERetrieveBookmark _ _ | ENow _ | EClearCurrentlySyncing
  | EWriteState _ => true
  | _ => false
  end.

(** The calls the driver can make for stream [id] once it has written its
    schema. *)
Definition fetch_event (id : string) (e : event) : bool :=
  match e with
  | EGetattr id' | ECall id' _ _ _ => String.eqb id id'
  | _ => handler_event id e
  end.

(** The [write_record] calls of a log: stream and row, in order. *)
Definition record_call (e : event) : option (string * row) :=
  match e with
  | EWriteRecord id r _ => Some (id, r)
  | _ => None
  end.

Definition record_calls (l : list event) : list (string * row) :=
  omap record_call l.

(** The [write_bookmark] calls of a log: stream, field and value. *)
Definition bookmark_call (e : event) : option (string * string * pyval) :=
  match e with
  | EWriteBookmark id field v => Some (id, field, v)
  | _ => None
  end.

Definition bookmark_calls (l : list event) : list (string * string * pyval) :=
  omap bookmark_call l.

(** The three calls every row goes through in the record handler: the
    bookmark is looked for, the clock is read, the row is written with that
    reading. *)
Definition emission (stream : CatalogEntry) (r : row) (w : world)
  : list event :=
  [ERetrieveBookmark (replication_key stream) r;
   ENow (clock w 0%nat);
   EWriteRecord (tap_stream_id stream) r (clock w 0%nat)].

(** ** The driver as the claims describe it

    Written out in full, without the functions of the embedding other than
    the record handler. *)

(** The entries before the first one of that identifier, and the entries
    from it on. *)
Fixpoint before_stream (id : string) (l : list CatalogEntry)
  : list CatalogEntry :=
  match l with
  | [] => []
  | e :: rest =>
      if String.eqb (tap_stream_id e) id then []
      else e :: before_stream id rest
  end.

Fixpoint from_stream (id : string) (l : list CatalogEntry)
  : list CatalogEntry :=
  match l with
  | [] => []
  | e :: rest =>
      if String.eqb (tap_stream_id e) id then e :: rest
      else from_stream id rest
  end.

(** The order of the run: the selected entries in catalog order; when the
    state names a currently-syncing stream, the order starts at that stream
    and the entries before it come last. *)
Definition spec_order (c : SingerCatalog) (st : tap_state)
  : list CatalogEntry :=
  match currently_syncing st with
  | None => List.filter (is_selected c) (entries c)
  | Some id =>
      List.filter (is_selected c) (from_stream id (entries c)) ++
      List.filter (is_selected c) (before_stream id (entries c))
  end.

Section Spec.

Variable STREAMS : gmap string stream_info.

(** Each row goes to the record handler, in fetch order, a row being pulled
    only once the one before it is handled; an error of the handler ends the
    run. *)
Fixpoint spec_rows (stream : CatalogEntry) (rows : list row) (w : world)
  : Run unit :=
  match rows with
  | [] => mk_run (Ret tt) w []
  | r :: rest =>
      let x := sync_record STREAMS stream r w in
      match result x with
      | Ret _ =>
          let y := spec_rows stream rest (after x) in
          mk_run (result y) (after y)
                 (EYield (tap_stream_id stream) r :: calls x ++ calls y)
      | Raise e =>
          mk_run (Raise e) (after x)
                 (EYield (tap_stream_id stream) r :: calls x)
      end
  end.

(** One stream: mark it currently syncing, resolve its state (its bookmark
    mapping if the state holds one, else the start date), write its schema,
    look its fetch method up (fatal if there is none), call it with the
    catch-up window, the schemaless flag and the resolved state as keyword
    arguments (fatal if they do not bind), handle the rows; an error of the
    generator ends the run once the rows it yielded are handled. *)
Definition spec_stream (paypal : PayPal) (start_date : string)
  (catchup_days : Z) (schemaless : bool) (stream : CatalogEntry) (w : world)
  : Run unit :=
  let id := tap_stream_id stream in
  let marked :=
    mk_world (mk_state (bookmarks (state w)) (Some id)) (clock w) in
  let kwargs :=
    match bookmarks (state w) !! id with
    | Some b => b
    | None => {[ "start_date" := PStr start_date ]}
    end in
  let steps :=
    [ESetCurrentlySyncing id; EGetStreamState start_date id;
     EWriteSchema id (schema stream) (key_properties stream);
     EGetattr id] in
  match paypal !! id with
  | None => mk_run (Raise (AttributeError id)) marked steps
  | Some fetch =>
      if accepts fetch kwargs then
        let gen := generate fetch catchup_days schemaless kwargs in
        let y := spec_rows stream (yields gen) marked in
        mk_run
          match result y, ends_with gen with
          | Ret _, Some e => Raise e
          | Ret _, None => Ret tt
          | Raise e, _ => Raise e
          end
          (after y)
          (steps ++ ECall id catchup_days schemaless kwargs :: calls y)
      else
        mk_run (Raise (TypeError id)) marked
               (steps ++ [ECall id catchup_days schemaless kwargs])
  end.

(** The streams one after the other, in the order given; the first error
    ends the run. *)
Fixpoint spec_streams (paypal : PayPal) (start_date : string)
  (catchup_days : Z) (schemaless : bool) (streams : list CatalogEntry)
  (w : world) : Run unit :=
  match streams with
  | [] => mk_run (Ret tt) w []
  | s :: rest =>
      let x := spec_stream paypal start_date catchup_days schemaless s w in
      match result x with
      | Ret _ =>
          let y := spec_streams paypal start_date catchup_days schemaless
                                rest (after x) in
          mk_run (result y) (after y) (calls x ++ calls y)
      | Raise e => mk_run (Raise e) (after x) (calls x)
      end
  end.

Definition spec_driver (paypal : PayPal) (c : SingerCatalog)
  (start_date : string) (catchup_days : Z) (schemaless : bool) (w : world)
  : Run unit :=
  let y := spec_streams paypal start_date catchup_days schemaless
                        (spec_order c (state w)) w in
  mk_run (result y) (after y) (EGetSelectedStreams :: calls y).

End Spec.

(** ** A concrete tap: the transactions stream *)

Module Scenario.

Definition transactions : CatalogEntry :=
  mk_entry "paypal_transactions" (PDict [("type", PStr "object")])
           ["id"] ["date_modified"].

(** A stream of the catalog for which the client has no method and the
    registry no entry. *)
Definition invoices : CatalogEntry :=
  mk_entry "paypal_invoices" (PDict [("type", PStr "object")])
           ["id"] ["date_modified"].

Definition registry : gmap string stream_info :=
  {[ "paypal_transactions" := mk_info "date_modified" ]}.

Definition row1 : row :=
  [("id", PStr "T1"); ("date_modified", PStr "2020-01-02T00:00:00Z")].

Definition row2 : row :=
  [("id", PStr "T2"); ("date_modified", PStr "2020-01-03T00:00:00Z")].

(** A row whose replication key is there and empty. *)
Definition row_empty_key : row :=
  [("id", PStr "T3"); ("date_modified", PStr "")].

(** A row without the replication key. *)
Definition row_no_key : row := [("id", PStr "T4")].

Definition client : PayPal :=
  {[ "paypal_transactions" :=
       mk_fetch spec_signature (fun _ _ _ => mk_gen [row1; row2] None) ]}.

Definition catalog : Catalog := mk_catalog (fun _ => [transactions]).

(** The catalog that selects the invoices before the transactions. *)
Definition catalog2 : Catalog :=
  mk_catalog (fun _ => [invoices; transactions]).

Definition start_date : string := "2020-01-01T00:00:00Z".

Definition empty_state : tap_state := mk_state ∅ None.

(** Seconds since the epoch, one second between two readings. *)
Definition wall_clock (n : nat) : Z := 1600000000 + Z.of_nat n.

Definition w0 : world := mk_world empty_state wall_clock.

End Scenario.


(** ** More readings of the call log *)

(** The rows pulled out of the generators: stream and row, in order. *)
Definition yield_call (e : event) : option (string * row) :=
  match e with
  | EYield id r => Some (id, r)
  | _ => None
  end.

Definition yield_calls (l : list event) : list (string * row) :=
  omap yield_call l.

(** The [time_extracted] arguments of the [write_record] calls. *)
Definition record_time (e : event) : option Z :=
  match e with
  | EWriteRecord _ _ t => Some t
  | _ => None
  end.

Definition record_times (l : list event) : list Z :=
  omap record_time l.

(** The readings of the wall clock. *)
Definition clock_reading (e : event) : option Z :=
  match e with
  | ENow t => Some t
  | _ => None
  end.

Definition clock_readings (l : list event) : list Z :=
  omap clock_reading l.

(** The states sent out by [write_state]. *)
Definition flushed_state (e : event) : option tap_state :=
  match e with
  | EWriteState st => Some st
  | _ => None
  end.

Definition flushed (l : list event) : list tap_state :=
  omap flushed_state l.

(** The streams whose schema was written, and the streams that were marked
    currently syncing. *)
Definition schema_id (e : event) : option string :=
  match e with
  | EWriteSchema id _ _ => Some id
  | _ => None
  end.

Definition schema_ids (l : list event) : list string :=
  omap schema_id l.

Definition marked_id (e : event) : option string :=
  match e with
  | ESetCurrentlySyncing id => Some id
  | _ => None
  end.

Definition marked_ids (l : list event) : list string :=
  omap marked_id l.

(** The calls of the driver that leave the state and the clock alone. *)
Definition driver_event (e : event) : bool :=
  match e with
  | EGetSelectedStreams | EGetStreamState _ _ | EWriteSchema _ _ _
  | EGetattr _ | ECall _ _ _ _ => true
  | _ => false
  end.

(** The world once stream [id] has been marked currently syncing. *)
Definition mark (id : string) (w : world) : world :=
  mk_world (set_marker id (state w)) (clock w).


(** A fetch call of the log is one the run may make: for a selected stream
    that the client has a method for, with the run's own catch-up window and
    schemaless flag. *)
Definition fetch_call_ok (paypal : PayPal) (streams : list CatalogEntry)
  (catchup_days : Z) (schemaless : bool) (e : event) : Prop :=
  match e with
  | ECall id c s _ =>
      c = catchup_days /\ s = schemaless /\
      In id (map tap_stream_id streams) /\ is_Some (paypal !! id)
  | _ => True
  end.

(** ** More of the concrete tap *)

Module Resumed.

(** A state left by an earlier run: the invoices have a bookmark, and the
    transactions a cursor of another name next to none for their
    replication key. *)
Definition earlier_state : tap_state :=
  mk_state
    {[ "paypal_invoices" :=
         {[ "date_modified" := PStr "2019-12-31T00:00:00Z" ]};
       "paypal_transactions" :=
         {[ "page" := PInt 7 ]} ]}
    None.

Definition w1 : world := mk_world earlier_state Scenario.wall_clock.

(** A client whose transactions carry no usable replication key. *)
Definition quiet_rows : fetch_method :=
  mk_fetch spec_signature
           (fun _ _ _ =>
              mk_gen [Scenario.row_no_key; Scenario.row_empty_key] None).

Definition quiet_client : PayPal :=
  {[ "paypal_transactions" := quiet_rows ]}.

(** A client with a method for both streams: the invoices yield no row. *)
Definition both_client : PayPal :=
  {[ "paypal_transactions" :=
       mk_fetch spec_signature
                (fun _ _ _ => mk_gen [Scenario.row1; Scenario.row2] None);
     "paypal_invoices" :=
       mk_fetch spec_signature (fun _ _ _ => mk_gen [] None) ]}.

(** The catalog with the invoices before the transactions, both selected. *)
Definition two_streams : SingerCatalog :=
  mk_singer_catalog [Scenario.invoices; Scenario.transactions]
                    (fun _ => true).

(** A run that starts from a state which names the transactions as
    currently syncing. *)
Definition interrupted : world :=
  mk_world (mk_state ∅ (Some "paypal_transactions")) Scenario.wall_clock.


End Resumed.

(** * Properties *)

(** ** Running the monad *)

Lemma run_eta {A : Type} (x : Run A) :
  mk_run (result x) (after x) (calls x) = x.
Proof. destruct x; reflexivity. Qed.

(** ** The record handler *)

(** [sync_record], case by case. *)
Lemma sync_record_run STREAMS stream r w :
  sync_record STREAMS stream r w =
  if truthy (bookmark_at (replication_key stream) r) then
    match STREAMS !! tap_stream_id stream with
    | Some info =>
        let st' :=
          clear_marker
            (put_bookmark (tap_stream_id stream) (bookmark info)
                          (bookmark_at (replication_key stream) r) (state w)) in
        mk_run (Ret tt) (mk_world st' (clock (tick w)))
               (emission stream r w ++
                [EWriteBookmark (tap_stream_id stream) (bookmark info)
                                (bookmark_at (replication_key stream) r);
                 EClearCurrentlySyncing;
                 EWriteState st'])
    | None => mk_run (Raise (KeyError (tap_stream_id stream))) (tick w)
                     (emission stream r w)
    end
  else mk_run (Ret tt) (tick w) (emission stream r w).
Proof.
  unfold sync_record, registry_bookmark, bind; simpl.
  destruct (truthy _); [|reflexivity].
  destruct (STREAMS !! _); reflexivity.
Qed.

(** One turn of the loop over the rows. *)
Lemma sync_rows_cons STREAMS stream r rest w :
  sync_rows STREAMS stream (r :: rest) w =
  match result (sync_record STREAMS stream r w) with
  | Ret _ =>
      mk_run
        (result (sync_rows STREAMS stream rest
                           (after (sync_record STREAMS stream r w))))
        (after (sync_rows STREAMS stream rest
                          (after (sync_record STREAMS stream r w))))
        (EYield (tap_stream_id stream) r ::
         calls (sync_record STREAMS stream r w) ++
         calls (sync_rows STREAMS stream rest
                          (after (sync_record STREAMS stream r w))))
  | Raise e =>
      mk_run (Raise e) (after (sync_record STREAMS stream r w))
             (EYield (tap_stream_id stream) r ::
              calls (sync_record STREAMS stream r w))
  end.
Proof.
  unfold sync_rows. cbn [for_each]. unfold bind, yielded, emit.
  cbn [result after calls].
  destruct (result (sync_record STREAMS stream r w)); reflexivity.
Qed.

(** C3: every row that [sync_record] processes is written with
    [write_record], tagged with the reading of the wall clock taken just
    before the call; and when no bookmark is found for the row
    ([retrieve_bookmark_with_path] gives [None]) the handler returns with the
    state unchanged after these calls only: no [write_bookmark], no clearing
    of the marker, no [write_state]. *)
Theorem sync_record_emits_row STREAMS stream r w :
  (exists rest,
     calls (sync_record STREAMS stream r w) =
     [ERetrieveBookmark (replication_key stream) r;
      ENow (clock w 0%nat);
      EWriteRecord (tap_stream_id stream) r (clock w 0%nat)] ++ rest) /\
  (bookmark_at (replication_key stream) r = PNone ->
   result (sync_record STREAMS stream r w) = Ret tt /\
   state (after (sync_record STREAMS stream r w)) = state w /\
   calls (sync_record STREAMS stream r w) =
   [ERetrieveBookmark (replication_key stream) r;
    ENow (clock w 0%nat);
    EWriteRecord (tap_stream_id stream) r (clock w 0%nat)] /\
   List.filter is_state_write (calls (sync_record STREAMS stream r w)) = []).
Proof.
  rewrite sync_record_run. split.
  - destruct (truthy _); [destruct (STREAMS !! _)|]; simpl; eauto.
  - intros ->. simpl. auto.
Qed.

Lemma sync_record_emits_row_witness :
  bookmark_at (replication_key Scenario.transactions) Scenario.row_no_key
  = PNone /\
  state (after (sync_record Scenario.registry Scenario.transactions
                            Scenario.row_no_key Scenario.w0))
  = Scenario.empty_state.
Proof.
  split; [reflexivity|].
  apply (proj2 (sync_record_emits_row Scenario.registry Scenario.transactions
                  Scenario.row_no_key Scenario.w0)).
  reflexivity.
Defined.

(** C8: the presence test is Python truthiness.  A row whose replication key
    is there with a falsy value (the empty string, 0 and [None] are falsy) is
    handled as a row without bookmark: it is written, and [sync_record]
    returns without writing a bookmark, clearing the marker or flushing the
    state. *)
Theorem sync_record_falsy_bookmark STREAMS stream r w :
  truthy (bookmark_at (replication_key stream) r) = false ->
  sync_record STREAMS stream r w =
  mk_run (Ret tt) (mk_world (state w) (fun n => clock w (S n)))
         [ERetrieveBookmark (replication_key stream) r;
          ENow (clock w 0%nat);
          EWriteRecord (tap_stream_id stream) r (clock w 0%nat)] /\
  truthy (PStr "") = false /\ truthy (PInt 0) = false /\
  truthy PNone = false.
Proof.
  intros H. rewrite sync_record_run, H. auto.
Qed.

Lemma sync_record_falsy_bookmark_witness :
  truthy (bookmark_at (replication_key Scenario.transactions)
                      Scenario.row_empty_key) = false /\
  calls (sync_record Scenario.registry Scenario.transactions
                     Scenario.row_empty_key Scenario.w0) =
  [ERetrieveBookmark ["date_modified"] Scenario.row_empty_key;
   ENow 1600000000;
   EWriteRecord "paypal_transactions" Scenario.row_empty_key 1600000000].
Proof.
  split; [reflexivity|].
  exact (f_equal calls
           (proj1 (sync_record_falsy_bookmark Scenario.registry
                     Scenario.transactions Scenario.row_empty_key Scenario.w0
                     eq_refl))).
Defined.

(** C10: a truthy bookmark for a stream that is not a key of [STREAMS] makes
    [sync_record] raise [KeyError] once the row has been written and before
    anything is done to the state: no bookmark, the marker as it was, no
    flush.  The loop over the rows ends there, with that exception. *)
Theorem sync_record_unregistered_stream STREAMS stream r rest w :
  truthy (bookmark_at (replication_key stream) r) = true ->
  STREAMS !! tap_stream_id stream = None ->
  sync_record STREAMS stream r w =
  mk_run (Raise (KeyError (tap_stream_id stream)))
         (mk_world (state w) (fun n => clock w (S n)))
         [ERetrieveBookmark (replication_key stream) r;
          ENow (clock w 0%nat);
          EWriteRecord (tap_stream_id stream) r (clock w 0%nat)] /\
  sync_rows STREAMS stream (r :: rest) w =
  mk_run (Raise (KeyError (tap_stream_id stream)))
         (mk_world (state w) (fun n => clock w (S n)))
         [EYield (tap_stream_id stream) r;
          ERetrieveBookmark (replication_key stream) r;
          ENow (clock w 0%nat);
          EWriteRecord (tap_stream_id stream) r (clock w 0%nat)].
Proof.
  intros Ht Hs.
  assert (E : sync_record STREAMS stream r w =
              mk_run (Raise (KeyError (tap_stream_id stream))) (tick w)
                     (emission stream r w))
    by (rewrite sync_record_run, Ht, Hs; reflexivity).
  split; [exact E|].
  rewrite sync_rows_cons, E. reflexivity.
Qed.

Lemma sync_record_unregistered_stream_witness :
  truthy (bookmark_at (replication_key Scenario.invoices) Scenario.row1)
  = true /\
  Scenario.registry !! tap_stream_id Scenario.invoices = None /\
  result (sync_rows Scenario.registry Scenario.invoices
                    [Scenario.row1; Scenario.row2] Scenario.w0)
  = Raise (KeyError "paypal_invoices").
Proof.
  split; [reflexivity|]. split; [reflexivity|].
  exact (f_equal result
           (proj2 (sync_record_unregistered_stream Scenario.registry
                     Scenario.invoices Scenario.row1 [Scenario.row2]
                     Scenario.w0 eq_refl eq_refl))).
Defined.

Lemma get_bookmark_put id field v st :
  get_bookmark (put_bookmark id field v st) id field = Some v.
Proof.
  unfold get_bookmark, put_bookmark; simpl.
  rewrite lookup_insert_eq; simpl. apply lookup_insert_eq.
Qed.

(** C1, amended: for every row whose replication-key path resolves to a
    truthy bookmark value, once [sync_record] has returned the state maps the
    stream's identifier and the bookmark field the registry declares to that
    value, whatever was there before, the currently-syncing marker is cleared
    and the state so obtained has been flushed with [write_state]; the calls
    are made in that order, after the row has been written. *)
Theorem sync_record_bookmarks_row STREAMS stream r w v :
  bookmark_at (replication_key stream) r = v ->
  truthy v = true ->
  result (sync_record STREAMS stream r w) = Ret tt ->
  exists info st',
    STREAMS !! tap_stream_id stream = Some info /\
    state (after (sync_record STREAMS stream r w)) = st' /\
    get_bookmark st' (tap_stream_id stream) (bookmark info) = Some v /\
    currently_syncing st' = None /\
    calls (sync_record STREAMS stream r w) =
    [ERetrieveBookmark (replication_key stream) r;
     ENow (clock w 0%nat);
     EWriteRecord (tap_stream_id stream) r (clock w 0%nat);
     EWriteBookmark (tap_stream_id stream) (bookmark info) v;
     EClearCurrentlySyncing;
     EWriteState st'].
Proof.
  intros Hv Ht. rewrite sync_record_run, Hv, Ht.
  destruct (STREAMS !! tap_stream_id stream) as [info|] eqn:Hs;
    [|discriminate].
  intros _. exists info. eexists. split; [reflexivity|].
  split; [reflexivity|]. split; [|split; reflexivity].
  apply (get_bookmark_put _ _ _ (state w)).
Qed.

Lemma sync_record_bookmarks_row_witness :
  bookmark_at (replication_key Scenario.transactions) Scenario.row1
  = PStr "2020-01-02T00:00:00Z" /\
  truthy (PStr "2020-01-02T00:00:00Z") = true /\
  result (sync_record Scenario.registry Scenario.transactions Scenario.row1
                      Scenario.w0) = Ret tt /\
  exists info st',
    Scenario.registry !! "paypal_transactions" = Some info /\
    state (after (sync_record Scenario.registry Scenario.transactions
                              Scenario.row1 Scenario.w0)) = st' /\
    get_bookmark st' "paypal_transactions" (bookmark info)
    = Some (PStr "2020-01-02T00:00:00Z") /\
    currently_syncing st' = None /\
    calls (sync_record Scenario.registry Scenario.transactions Scenario.row1
                       Scenario.w0) =
    [ERetrieveBookmark ["date_modified"] Scenario.row1;
     ENow 1600000000;
     EWriteRecord "paypal_transactions" Scenario.row1 1600000000;
     EWriteBookmark "paypal_transactions" (bookmark info)
                    (PStr "2020-01-02T00:00:00Z");
     EClearCurrentlySyncing;
     EWriteState st'].
Proof.
  split; [reflexivity|]. split; [reflexivity|]. split; [reflexivity|].
  apply (sync_record_bookmarks_row Scenario.registry Scenario.transactions
           Scenario.row1 Scenario.w0 (PStr "2020-01-02T00:00:00Z"));
    reflexivity.
Defined.

(** C1 as it is stated fails on a row whose replication key is the empty
    string: the path resolves to that value and [sync_record] returns, yet
    the state holds no bookmark for the stream, the marker is not cleared
    and nothing is flushed. *)
Lemma sync_record_empty_bookmark_not_recorded :
  bookmark_at (replication_key Scenario.transactions) Scenario.row_empty_key
  = PStr "" /\
  result (sync_record Scenario.registry Scenario.transactions
                      Scenario.row_empty_key
                      (mk_world (mk_state ∅ (Some "paypal_transactions"))
                                Scenario.wall_clock)) = Ret tt /\
  get_bookmark
    (state (after (sync_record Scenario.registry Scenario.transactions
                     Scenario.row_empty_key
                     (mk_world (mk_state ∅ (Some "paypal_transactions"))
                               Scenario.wall_clock))))
    "paypal_transactions" "date_modified" <> Some (PStr "") /\
  currently_syncing
    (state (after (sync_record Scenario.registry Scenario.transactions
                     Scenario.row_empty_key
                     (mk_world (mk_state ∅ (Some "paypal_transactions"))
                               Scenario.wall_clock))))
  = Some "paypal_transactions" /\
  List.filter is_state_write
    (calls (sync_record Scenario.registry Scenario.transactions
              Scenario.row_empty_key
              (mk_world (mk_state ∅ (Some "paypal_transactions"))
                        Scenario.wall_clock))) = [].
Proof.
  split; [reflexivity|]. split; [reflexivity|].
  split; [discriminate|]. split; reflexivity.
Qed.

(** ** The loop over the rows *)

Lemma sync_record_bookmarked STREAMS stream info r w :
  STREAMS !! tap_stream_id stream = Some info ->
  truthy (bookmark_at (replication_key stream) r) = true ->
  sync_record STREAMS stream r w =
  mk_run (Ret tt)
         (mk_world
            (clear_marker
               (put_bookmark (tap_stream_id stream) (bookmark info)
                  (bookmark_at (replication_key stream) r) (state w)))
            (clock (tick w)))
         (emission stream r w ++
          [EWriteBookmark (tap_stream_id stream) (bookmark info)
                          (bookmark_at (replication_key stream) r);
           EClearCurrentlySyncing;
           EWriteState
             (clear_marker
                (put_bookmark (tap_stream_id stream) (bookmark info)
                   (bookmark_at (replication_key stream) r) (state w)))]).
Proof. intros Hs Ht. rewrite sync_record_run, Ht, Hs. reflexivity. Qed.

Lemma record_calls_app l1 l2 :
  record_calls (l1 ++ l2) = record_calls l1 ++ record_calls l2.
Proof. apply omap_app. Qed.

Lemma bookmark_calls_app l1 l2 :
  bookmark_calls (l1 ++ l2) = bookmark_calls l1 ++ bookmark_calls l2.
Proof. apply omap_app. Qed.

(** C4, amended: bookmarks are last-write-wins over the rows processed.  For
    a stream of the registry and any finite sequence of rows that each yield
    a truthy bookmark, the loop returns having made one [write_record] call
    and one [write_bookmark] call per row, in the order of the rows, and the
    stream's bookmark in the final state is the one of the last row. *)
Theorem sync_rows_last_write_wins STREAMS stream info rows w :
  STREAMS !! tap_stream_id stream = Some info ->
  Forall (fun r => truthy (bookmark_at (replication_key stream) r) = true)
         rows ->
  result (sync_rows STREAMS stream rows w) = Ret tt /\
  record_calls (calls (sync_rows STREAMS stream rows w)) =
  map (fun r => (tap_stream_id stream, r)) rows /\
  bookmark_calls (calls (sync_rows STREAMS stream rows w)) =
  map (fun r => (tap_stream_id stream, bookmark info,
                 bookmark_at (replication_key stream) r)) rows /\
  forall r_last,
    last rows = Some r_last ->
    get_bookmark (state (after (sync_rows STREAMS stream rows w)))
                 (tap_stream_id stream) (bookmark info)
    = Some (bookmark_at (replication_key stream) r_last).
Proof.
  intros Hs Hall. revert w.
  induction Hall as [|r rest Hr Hrest IH]; intros w.
  - repeat split; try reflexivity. intros r_last H; discriminate H.
  - rewrite sync_rows_cons.
    rewrite (sync_record_bookmarked STREAMS stream info r w Hs Hr).
    cbn [result after calls].
    set (w1 := mk_world _ _).
    destruct (IH w1) as (Hres & Hrec & Hbm & Hlast).
    split; [exact Hres|]. split; [|split].
    + change (EYield (tap_stream_id stream) r :: ?l ++ ?l')
        with ((EYield (tap_stream_id stream) r :: l) ++ l').
      rewrite record_calls_app, Hrec. reflexivity.
    + change (EYield (tap_stream_id stream) r :: ?l ++ ?l')
        with ((EYield (tap_stream_id stream) r :: l) ++ l').
      rewrite bookmark_calls_app, Hbm. reflexivity.
    + intros r_last Hl. destruct rest as [|r' rest'].
      * injection Hl as <-. unfold sync_rows; cbn [for_each ret after].
        subst w1; cbn [state]. apply (get_bookmark_put _ _ _ (state w)).
      * apply Hlast. exact Hl.
Qed.

Lemma sync_rows_last_write_wins_witness :
  Scenario.registry !! tap_stream_id Scenario.transactions
  = Some (mk_info "date_modified") /\
  Forall (fun r => truthy (bookmark_at
                             (replication_key Scenario.transactions) r)
                   = true)
         [Scenario.row1; Scenario.row2] /\
  bookmark_calls
    (calls (sync_rows Scenario.registry Scenario.transactions
                      [Scenario.row1; Scenario.row2] Scenario.w0)) =
  [("paypal_transactions", "date_modified", PStr "2020-01-02T00:00:00Z");
   ("paypal_transactions", "date_modified", PStr "2020-01-03T00:00:00Z")] /\
  get_bookmark
    (state (after (sync_rows Scenario.registry Scenario.transactions
                             [Scenario.row1; Scenario.row2] Scenario.w0)))
    "paypal_transactions" "date_modified"
  = Some (PStr "2020-01-03T00:00:00Z").
Proof.
  assert (H1 : Scenario.registry !! tap_stream_id Scenario.transactions
               = Some (mk_info "date_modified")) by reflexivity.
  assert (H2 : Forall (fun r => truthy (bookmark_at
                         (replication_key Scenario.transactions) r) = true)
                      [Scenario.row1; Scenario.row2])
    by (repeat constructor).
  split; [exact H1|]. split; [exact H2|].
  split.
  - exact (proj1 (proj2 (proj2
      (sync_rows_last_write_wins Scenario.registry Scenario.transactions
         (mk_info "date_modified") [Scenario.row1; Scenario.row2]
         Scenario.w0 H1 H2)))).
  - exact (proj2 (proj2 (proj2
      (sync_rows_last_write_wins Scenario.registry Scenario.transactions
         (mk_info "date_modified") [Scenario.row1; Scenario.row2]
         Scenario.w0 H1 H2))) Scenario.row2 eq_refl).
Defined.

(** C4 as it is stated fails on a row that yields the empty string as its
    bookmark: the row is written, no [write_bookmark] call is made for it
    and the final state holds no bookmark for the stream. *)
Lemma sync_rows_empty_bookmark_not_written :
  bookmark_at (replication_key Scenario.transactions) Scenario.row_empty_key
  = PStr "" /\
  result (sync_rows Scenario.registry Scenario.transactions
                    [Scenario.row_empty_key] Scenario.w0) = Ret tt /\
  record_calls
    (calls (sync_rows Scenario.registry Scenario.transactions
                      [Scenario.row_empty_key] Scenario.w0))
  = [("paypal_transactions", Scenario.row_empty_key)] /\
  bookmark_calls
    (calls (sync_rows Scenario.registry Scenario.transactions
                      [Scenario.row_empty_key] Scenario.w0)) = [] /\
  get_bookmark
    (state (after (sync_rows Scenario.registry Scenario.transactions
                             [Scenario.row_empty_key] Scenario.w0)))
    "paypal_transactions" "date_modified" <> Some (PStr "").
Proof.
  split; [reflexivity|]. split; [reflexivity|]. split; [reflexivity|].
  split; [reflexivity|]. discriminate.
Qed.

(** ** The driver *)

Lemma for_each_cons {A : Type} (x : A) (l : list A) (body : A -> M unit) w :
  for_each (x :: l) body w =
  match result (body x w) with
  | Ret _ =>
      mk_run (result (for_each l body (after (body x w))))
             (after (for_each l body (after (body x w))))
             (calls (body x w) ++ calls (for_each l body (after (body x w))))
  | Raise e => mk_run (Raise e) (after (body x w)) (calls (body x w))
  end.
Proof. reflexivity. Qed.

Lemma for_each_app {A : Type} (l1 l2 : list A) (body : A -> M unit) w :
  for_each (l1 ++ l2) body w =
  match result (for_each l1 body w) with
  | Ret _ =>
      mk_run (result (for_each l2 body (after (for_each l1 body w))))
             (after (for_each l2 body (after (for_each l1 body w))))
             (calls (for_each l1 body w) ++
              calls (for_each l2 body (after (for_each l1 body w))))
  | Raise e =>
      mk_run (Raise e) (after (for_each l1 body w))
             (calls (for_each l1 body w))
  end.
Proof.
  revert w. induction l1 as [|x l1 IH]; intros w.
  - cbn [app for_each ret result after calls]. symmetry. apply run_eta.
  - cbn [app]. rewrite !for_each_cons.
    destruct (result (body x w)) as [[]|e]; [|reflexivity].
    rewrite IH. cbn [result after calls].
    destruct (result (for_each l1 body (after (body x w)))) as [[]|e];
      cbn [result after calls]; [|reflexivity].
    rewrite app_assoc. reflexivity.
Qed.

(** The loop over the rows is step 6 of the spec. *)
Lemma sync_rows_spec STREAMS stream rows w :
  sync_rows STREAMS stream rows w = spec_rows STREAMS stream rows w.
Proof.
  revert w. induction rows as [|r rest IH]; intros w; [reflexivity|].
  rewrite sync_rows_cons. cbn [spec_rows].
  destruct (result (sync_record STREAMS stream r w)) as [[]|e];
    [|reflexivity].
  rewrite IH. reflexivity.
Qed.

Lemma bind_step {A B : Type} (m : M A) (f : A -> M B) w a w' l :
  m w = mk_run (Ret a) w' l ->
  bind m f w = preceded_by l (f a w').
Proof. intros H. unfold bind. rewrite H. reflexivity. Qed.

Lemma bind_stop {A B : Type} (m : M A) (f : A -> M B) w e w' l :
  m w = mk_run (Raise e) w' l ->
  bind m f w = mk_run (Raise e) w' l.
Proof. intros H. unfold bind. rewrite H. reflexivity. Qed.

Lemma set_currently_syncing_run id w :
  set_currently_syncing id w =
  mk_run (Ret tt) (mk_world (set_marker id (state w)) (clock w))
         [ESetCurrentlySyncing id].
Proof. reflexivity. Qed.

Lemma get_stream_state_run start_date id w :
  get_stream_state start_date id w =
  mk_run (Ret (stream_state_of (state w) start_date id)) w
         [EGetStreamState start_date id].
Proof. reflexivity. Qed.

Lemma getattr_found (paypal : PayPal) id fetch w :
  paypal !! id = Some fetch ->
  getattr paypal id w = mk_run (Ret fetch) w [EGetattr id].
Proof.
  intros H. unfold getattr. erewrite bind_step by reflexivity.
  rewrite H. reflexivity.
Qed.

Lemma getattr_missing (paypal : PayPal) id w :
  paypal !! id = None ->
  getattr paypal id w = mk_run (Raise (AttributeError id)) w [EGetattr id].
Proof.
  intros H. unfold getattr. erewrite bind_step by reflexivity.
  rewrite H. reflexivity.
Qed.

Lemma call_accepted id (fetch : fetch_method) catchup_days schemaless
  kwargs w :
  accepts fetch kwargs = true ->
  call id fetch catchup_days schemaless kwargs w =
  mk_run (Ret (generate fetch catchup_days schemaless kwargs)) w
         [ECall id catchup_days schemaless kwargs].
Proof.
  intros H. unfold call. erewrite bind_step by reflexivity.
  rewrite H. reflexivity.
Qed.

Lemma call_rejected id (fetch : fetch_method) catchup_days schemaless
  kwargs w :
  accepts fetch kwargs = false ->
  call id fetch catchup_days schemaless kwargs w =
  mk_run (Raise (TypeError id)) w [ECall id catchup_days schemaless kwargs].
Proof.
  intros H. unfold call. erewrite bind_step by reflexivity.
  rewrite H. reflexivity.
Qed.

Lemma bind_exhausted (m : M unit) (gen : generator) w :
  bind m (fun _ => exhausted gen) w =
  mk_run
    match result (m w), ends_with gen with
    | Ret _, Some e => Raise e
    | Ret _, None => Ret tt
    | Raise e, _ => Raise e
    end
    (after (m w)) (calls (m w)).
Proof.
  unfold bind, exhausted.
  destruct (result (m w)) as [[]|e]; [|reflexivity].
  destruct (ends_with gen); cbn [raise ret result after calls];
    by rewrite app_nil_r.
Qed.

(** The body of the loop over the streams, written out. *)
Lemma sync_stream_spec STREAMS paypal start_date catchup_days schemaless
  stream w :
  sync_stream STREAMS paypal start_date catchup_days schemaless stream w =
  spec_stream STREAMS paypal start_date catchup_days schemaless stream w.
Proof.
  unfold sync_stream, spec_stream.
  erewrite bind_step by apply set_currently_syncing_run.
  erewrite bind_step by apply get_stream_state_run.
  erewrite bind_step by reflexivity.
  unfold stream_state_of. cbn [state set_marker bookmarks].
  destruct (paypal !! tap_stream_id stream) as [fetch|] eqn:Hp.
  - erewrite bind_step by (apply getattr_found; exact Hp).
    match goal with
    | |- context [accepts fetch ?kw] =>
        destruct (accepts fetch kw) eqn:Ha
    end.
    + erewrite bind_step by (apply call_accepted; exact Ha).
      rewrite bind_exhausted, sync_rows_spec. reflexivity.
    + erewrite bind_stop by (apply call_rejected; exact Ha).
      reflexivity.
  - erewrite bind_stop by (apply getattr_missing; exact Hp).
    reflexivity.
Qed.

(** What every run of the body of the loop comes to: the four calls that
    start a stream and, when the client has the method, the call and the
    loop over some rows. *)
Lemma sync_stream_shape STREAMS (paypal : PayPal) start_date catchup_days
  schemaless stream w :
  (paypal !! tap_stream_id stream = None /\
   after (sync_stream STREAMS paypal start_date catchup_days schemaless
                      stream w) = mark (tap_stream_id stream) w /\
   calls (sync_stream STREAMS paypal start_date catchup_days schemaless
                      stream w) =
   [ESetCurrentlySyncing (tap_stream_id stream);
    EGetStreamState start_date (tap_stream_id stream);
    EWriteSchema (tap_stream_id stream) (schema stream)
                 (key_properties stream);
    EGetattr (tap_stream_id stream)]) \/
  (exists rows,
     is_Some (paypal !! tap_stream_id stream) /\
     after (sync_stream STREAMS paypal start_date catchup_days schemaless
                        stream w) =
     after (sync_rows STREAMS stream rows (mark (tap_stream_id stream) w)) /\
     calls (sync_stream STREAMS paypal start_date catchup_days schemaless
                        stream w) =
     [ESetCurrentlySyncing (tap_stream_id stream);
      EGetStreamState start_date (tap_stream_id stream);
      EWriteSchema (tap_stream_id stream) (schema stream)
                   (key_properties stream);
      EGetattr (tap_stream_id stream)] ++
     ECall (tap_stream_id stream) catchup_days schemaless
           (stream_state_of (state w) start_date (tap_stream_id stream)) ::
     calls (sync_rows STREAMS stream rows (mark (tap_stream_id stream) w))).
Proof.
  rewrite sync_stream_spec. unfold spec_stream.
  destruct (paypal !! tap_stream_id stream) as [fetch|] eqn:Hp;
    [right|left; by repeat split].
  match goal with
  | |- context [accepts fetch ?kw] => destruct (accepts fetch kw) eqn:Ha
  end.
  - eexists. split; [by eexists|]. rewrite sync_rows_spec.
    split; reflexivity.
  - exists []. split; [by eexists|]. split; reflexivity.
Qed.

Lemma sync_streams_spec STREAMS paypal start_date catchup_days schemaless
  streams w :
  for_each streams
           (sync_stream STREAMS paypal start_date catchup_days schemaless) w =
  spec_streams STREAMS paypal start_date catchup_days schemaless streams w.
Proof.
  revert w. induction streams as [|s rest IH]; intros w; [reflexivity|].
  rewrite for_each_cons. cbn [spec_streams]. rewrite sync_stream_spec.
  destruct (result (spec_stream _ _ _ _ _ s w)) as [[]|e]; [|reflexivity].
  rewrite IH. reflexivity.
Qed.

Lemma sync_run STREAMS paypal catalog start_date catchup_days schemaless w :
  sync STREAMS paypal catalog start_date catchup_days schemaless w =
  mk_run
    (result (for_each (get_selected_streams catalog (state w))
               (sync_stream STREAMS paypal start_date catchup_days schemaless)
               w))
    (after (for_each (get_selected_streams catalog (state w))
              (sync_stream STREAMS paypal start_date catchup_days schemaless)
              w))
    (EGetSelectedStreams ::
     calls (for_each (get_selected_streams catalog (state w))
              (sync_stream STREAMS paypal start_date catchup_days schemaless)
              w)).
Proof. reflexivity. Qed.

(** singer's order of the selected streams, said with the catalog only. *)
Lemma index_of_split id l :
  match index_of id l with
  | Some i => drop i l = from_stream id l /\ take i l = before_stream id l
  | None => from_stream id l = [] /\ before_stream id l = l
  end.
Proof.
  induction l as [|e rest IH]; [by split|].
  cbn [index_of from_stream before_stream].
  destruct (String.eqb (tap_stream_id e) id); [by split|].
  destruct (index_of id rest) as [i|]; cbn [fmap option_fmap option_map];
    destruct IH as [H1 H2]; cbn [drop take]; rewrite ?H1, ?H2; by split.
Qed.

Lemma singer_order c st : singer_selected_streams c st = spec_order c st.
Proof.
  unfold singer_selected_streams, shuffle_streams, spec_order.
  destruct (currently_syncing st) as [id|]; [|reflexivity].
  pose proof (index_of_split id (entries c)) as H.
  destruct (index_of id (entries c)) as [i|];
    cbv [default from_option Datatypes.id];
    destruct H as [H1 H2]; rewrite List.filter_app.
  - by rewrite H1, H2.
  - rewrite H1, H2. cbn [drop take List.filter]. by rewrite app_nil_r.
Qed.

(** C7, amended: the driver processes the selected streams strictly one after
    the other, in catalog order, starting at the stream that the state names
    as currently syncing when it names one (the entries before it come
    last).  For each stream it marks it currently syncing, resolves its state
    (the bookmark mapping of the state if there is one, else the start date),
    writes its schema, looks its fetch method up, calls it with the catch-up
    window, the schemaless flag and the resolved state as keyword arguments,
    and hands each row to [sync_record] before the next one is pulled; the
    first error ends the run.  Result, final state and call log of [sync] are
    those of this procedure written out. *)
Theorem sync_refines_spec_driver STREAMS paypal (c : SingerCatalog)
  start_date catchup_days schemaless w :
  sync STREAMS paypal (singer_catalog c) start_date catchup_days schemaless w
  = spec_driver STREAMS paypal c start_date catchup_days schemaless w.
Proof.
  rewrite sync_run, sync_streams_spec. unfold spec_driver.
  cbn [get_selected_streams singer_catalog]. by rewrite singer_order.
Qed.

(** C7 as it is stated fails on a state that names a stream as currently
    syncing: the catalog has the invoices before the transactions, both
    selected, and the run starts with the transactions. *)
Lemma sync_starts_at_marked_stream :
  List.filter (is_selected Resumed.two_streams)
              (entries Resumed.two_streams)
  = [Scenario.invoices; Scenario.transactions] /\
  result (sync Scenario.registry Resumed.both_client
               (singer_catalog Resumed.two_streams) Scenario.start_date
               3 false Resumed.interrupted) = Ret tt /\
  marked_ids
    (calls (sync Scenario.registry Resumed.both_client
                 (singer_catalog Resumed.two_streams) Scenario.start_date
                 3 false Resumed.interrupted))
  = ["paypal_transactions"; "paypal_invoices"].
Proof. split; [reflexivity|]. split; reflexivity. Qed.

(** The body of the loop for a stream the client has no method for. *)
Lemma sync_stream_no_method STREAMS paypal start_date catchup_days schemaless
  stream w :
  paypal !! tap_stream_id stream = None ->
  sync_stream STREAMS paypal start_date catchup_days schemaless stream w =
  mk_run (Raise (AttributeError (tap_stream_id stream)))
         (mk_world (set_marker (tap_stream_id stream) (state w)) (clock w))
         [ESetCurrentlySyncing (tap_stream_id stream);
          EGetStreamState start_date (tap_stream_id stream);
          EWriteSchema (tap_stream_id stream) (schema stream)
                       (key_properties stream);
          EGetattr (tap_stream_id stream)].
Proof.
  intros H. rewrite sync_stream_spec. unfold spec_stream. rewrite H.
  reflexivity.
Qed.

(** C9: when the lookup of the fetch method fails, the stream has already
    been marked currently syncing in the state and its schema has already
    been written: the marking, the resolution of the state, the schema and
    the failed lookup are all the calls made for it, and the state that is
    left names it as currently syncing.  No row of it is fetched or
    written. *)
Theorem lookup_fails_after_marker_and_schema STREAMS paypal start_date
  catchup_days schemaless stream w :
  paypal !! tap_stream_id stream = None ->
  result (sync_stream STREAMS paypal start_date catchup_days schemaless
                      stream w)
  = Raise (AttributeError (tap_stream_id stream)) /\
  calls (sync_stream STREAMS paypal start_date catchup_days schemaless
                     stream w) =
  [ESetCurrentlySyncing (tap_stream_id stream);
   EGetStreamState start_date (tap_stream_id stream);
   EWriteSchema (tap_stream_id stream) (schema stream)
                (key_properties stream);
   EGetattr (tap_stream_id stream)] /\
  currently_syncing
    (state (after (sync_stream STREAMS paypal start_date catchup_days
                               schemaless stream w)))
  = Some (tap_stream_id stream) /\
  bookmarks
    (state (after (sync_stream STREAMS paypal start_date catchup_days
                               schemaless stream w)))
  = bookmarks (state w).
Proof.
  intros H. rewrite (sync_stream_no_method _ _ _ _ _ _ _ H). auto.
Qed.

Lemma lookup_fails_after_marker_and_schema_witness :
  Scenario.client !! tap_stream_id Scenario.invoices = None /\
  calls (sync_stream Scenario.registry Scenario.client Scenario.start_date
                     3 false Scenario.invoices Scenario.w0) =
  [ESetCurrentlySyncing "paypal_invoices";
   EGetStreamState "2020-01-01T00:00:00Z" "paypal_invoices";
   EWriteSchema "paypal_invoices" (PDict [("type", PStr "object")]) ["id"];
   EGetattr "paypal_invoices"].
Proof.
  split; [reflexivity|].
  exact (proj1 (proj2
    (lookup_fails_after_marker_and_schema Scenario.registry Scenario.client
       Scenario.start_date 3 false Scenario.invoices Scenario.w0 eq_refl))).
Defined.



(** ** What a stream leaves in the call log *)

Lemma filter_none {A : Type} (f : A -> bool) (l : list A) :
  Forall (fun x => f x = false) l -> List.filter f l = [].
Proof.
  induction 1 as [|x l Hx _ IH]; [reflexivity|].
  cbn [List.filter]. rewrite Hx. exact IH.
Qed.

Lemma sync_record_events STREAMS stream r w :
  Forall (fun e => handler_event (tap_stream_id stream) e = true)
         (calls (sync_record STREAMS stream r w)).
Proof.
  rewrite sync_record_run.
  destruct (truthy _); [destruct (STREAMS !! _)|]; cbn [calls emission app];
    repeat constructor; cbn [handler_event]; apply String.eqb_refl.
Qed.

Lemma sync_rows_events STREAMS stream rows w :
  Forall (fun e => handler_event (tap_stream_id stream) e = true)
         (calls (sync_rows STREAMS stream rows w)).
Proof.
  revert w. induction rows as [|r rest IH]; intros w; [constructor|].
  rewrite sync_rows_cons.
  pose proof (sync_record_events STREAMS stream r w) as Hr.
  destruct (result (sync_record STREAMS stream r w)) as [[]|e];
    cbn [calls]; constructor;
    try (cbn [handler_event]; apply String.eqb_refl); [|exact Hr].
  apply Forall_app. split; [exact Hr|apply IH].
Qed.

(** The calls made for one stream: the marking, the resolution of the state
    and the schema come first, once; the lookup, the fetch and the rows
    follow. *)
Lemma sync_stream_calls STREAMS paypal start_date catchup_days schemaless
  stream w :
  exists rest,
    calls (sync_stream STREAMS paypal start_date catchup_days schemaless
                       stream w) =
    ESetCurrentlySyncing (tap_stream_id stream) ::
    EGetStreamState start_date (tap_stream_id stream) ::
    EWriteSchema (tap_stream_id stream) (schema stream)
                 (key_properties stream) :: rest /\
    Forall (fun e => fetch_event (tap_stream_id stream) e = true) rest.
Proof.
  destruct (sync_stream_shape STREAMS paypal start_date catchup_days
              schemaless stream w)
    as [(_ & _ & ->)|(rows & _ & _ & ->)];
    cbn [app]; eexists; (split; [reflexivity|]).
  - constructor; [apply String.eqb_refl|constructor].
  - constructor; [apply String.eqb_refl|].
    constructor; [apply String.eqb_refl|].
    eapply Forall_impl; [apply sync_rows_events|].
    intros e He. destruct e; try discriminate He; exact He.
Qed.

Lemma fetch_event_not_marker id e :
  fetch_event id e = true -> is_set_marker e = false.
Proof. destruct e; try reflexivity; discriminate. Qed.

Lemma fetch_event_not_schema id i e :
  fetch_event id e = true -> is_schema_of i e = false.
Proof. destruct e; try reflexivity; discriminate. Qed.

Lemma fetch_event_record id i e :
  i <> id -> fetch_event id e = true -> is_record_of i e = false.
Proof.
  intros Hne. destruct e; try reflexivity.
  cbn [fetch_event handler_event is_record_of]. intros He.
  apply String.eqb_eq in He. subst. apply String.eqb_neq. exact Hne.
Qed.

(** A stream leaves no schema and no record of another stream in the log. *)
Lemma sync_stream_other STREAMS paypal start_date catchup_days schemaless
  stream w i :
  i <> tap_stream_id stream ->
  List.filter (is_schema_of i)
    (calls (sync_stream STREAMS paypal start_date catchup_days schemaless
                        stream w)) = [] /\
  List.filter (is_record_of i)
    (calls (sync_stream STREAMS paypal start_date catchup_days schemaless
                        stream w)) = [].
Proof.
  intros Hne.
  destruct (sync_stream_calls STREAMS paypal start_date catchup_days
              schemaless stream w) as (rest & -> & Hrest).
  assert (Hs : (String.eqb i (tap_stream_id stream)) = false)
    by (apply String.eqb_neq; exact Hne).
  cbn [List.filter is_schema_of is_record_of]. rewrite Hs. split.
  - apply filter_none. eapply Forall_impl; [exact Hrest|].
    intros e. apply fetch_event_not_schema.
  - apply filter_none. eapply Forall_impl; [exact Hrest|].
    intros e. apply fetch_event_record. exact Hne.
Qed.

Lemma sync_streams_other STREAMS paypal start_date catchup_days schemaless
  streams w i :
  ~ In i (map tap_stream_id streams) ->
  List.filter (is_schema_of i)
    (calls (for_each streams
              (sync_stream STREAMS paypal start_date catchup_days schemaless)
              w)) = [] /\
  List.filter (is_record_of i)
    (calls (for_each streams
              (sync_stream STREAMS paypal start_date catchup_days schemaless)
              w)) = [].
Proof.
  revert w. induction streams as [|s rest IH]; intros w Hni; [auto|].
  cbn [map In] in Hni.
  assert (Hne : i <> tap_stream_id s) by (intros ->; apply Hni; auto).
  assert (Hrest : ~ In i (map tap_stream_id rest)) by (intros H; apply Hni; auto).
  destruct (sync_stream_other STREAMS paypal start_date catchup_days
              schemaless s w i Hne) as [H1 H2].
  rewrite for_each_cons.
  destruct (result (sync_stream _ _ _ _ _ s w)) as [[]|e]; cbn [calls];
    [|auto].
  rewrite !List.filter_app, H1, H2.
  destruct (IH (after (sync_stream STREAMS paypal start_date catchup_days
                         schemaless s w)) Hrest) as [H3 H4].
  rewrite H3, H4. auto.
Qed.

(** C6, amended: for every selected stream that the driver reaches (the
    streams selected before it were processed without error) and whose
    identifier is selected once, the schema is written exactly once, and
    before any record of that stream. *)
Theorem schema_once_before_records STREAMS paypal catalog start_date
  catchup_days schemaless w pre stream post :
  get_selected_streams catalog (state w) = pre ++ stream :: post ->
  ~ In (tap_stream_id stream) (map tap_stream_id pre) ->
  ~ In (tap_stream_id stream) (map tap_stream_id post) ->
  result (for_each pre
            (sync_stream STREAMS paypal start_date catchup_days schemaless)
            w) = Ret tt ->
  exists p q,
    calls (sync STREAMS paypal catalog start_date catchup_days schemaless w)
    = p ++ EWriteSchema (tap_stream_id stream) (schema stream)
                        (key_properties stream) :: q /\
    List.filter (is_schema_of (tap_stream_id stream)) p = [] /\
    List.filter (is_schema_of (tap_stream_id stream)) q = [] /\
    List.filter (is_record_of (tap_stream_id stream)) p = [].
Proof.
  intros Hsel Hpre Hpost Hret.
  rewrite sync_run, Hsel, for_each_app, Hret. cbn [calls].
  set (w1 := after (for_each pre _ w)).
  destruct (sync_streams_other STREAMS paypal start_date catchup_days
              schemaless pre w (tap_stream_id stream) Hpre) as [Hp1 Hp2].
  destruct (sync_stream_calls STREAMS paypal start_date catchup_days
              schemaless stream w1) as (tl & Hc & Htl).
  assert (Htl' : List.filter (is_schema_of (tap_stream_id stream)) tl = []).
  { apply filter_none. eapply Forall_impl; [exact Htl|].
    intros e. apply fetch_event_not_schema. }
  exists (EGetSelectedStreams ::
          calls (for_each pre
                   (sync_stream STREAMS paypal start_date catchup_days
                                schemaless) w) ++
          [ESetCurrentlySyncing (tap_stream_id stream);
           EGetStreamState start_date (tap_stream_id stream)]).
  rewrite for_each_cons.
  destruct (result (sync_stream _ _ _ _ _ stream w1)) as [[]|e];
    cbn [calls]; rewrite Hc.
  - exists (tl ++ calls (for_each post
                          (sync_stream STREAMS paypal start_date catchup_days
                                       schemaless)
                          (after (sync_stream STREAMS paypal start_date
                                    catchup_days schemaless stream w1)))).
    split; [cbn [app]; rewrite <- app_assoc; reflexivity|].
    destruct (sync_streams_other STREAMS paypal start_date catchup_days
                schemaless post
                (after (sync_stream STREAMS paypal start_date catchup_days
                          schemaless stream w1))
                (tap_stream_id stream) Hpost) as [Hq _].
    cbn [List.filter is_schema_of is_record_of].
    rewrite !List.filter_app, Hp1, Hp2, Htl', Hq. auto.
  - exists tl.
    split; [cbn [app]; rewrite <- app_assoc; reflexivity|].
    cbn [List.filter is_schema_of is_record_of].
    rewrite !List.filter_app, Hp1, Hp2. auto.
Qed.

Lemma schema_once_before_records_witness :
  get_selected_streams Scenario.catalog (state Scenario.w0)
  = [] ++ Scenario.transactions :: [] /\
  ~ In (tap_stream_id Scenario.transactions) (map tap_stream_id []) /\
  result (for_each []
            (sync_stream Scenario.registry Scenario.client
                         Scenario.start_date 3 false) Scenario.w0) = Ret tt /\
  exists p q,
    calls (sync Scenario.registry Scenario.client Scenario.catalog
                Scenario.start_date 3 false Scenario.w0)
    = p ++ EWriteSchema "paypal_transactions"
                        (PDict [("type", PStr "object")]) ["id"] :: q /\
    List.filter (is_schema_of "paypal_transactions") p = [] /\
    List.filter (is_schema_of "paypal_transactions") q = [] /\
    List.filter (is_record_of "paypal_transactions") p = [].
Proof.
  split; [reflexivity|]. split; [intros H; exact H|].
  split; [reflexivity|].
  exact (schema_once_before_records Scenario.registry Scenario.client
           Scenario.catalog Scenario.start_date 3 false Scenario.w0
           [] Scenario.transactions [] eq_refl (fun H => H) (fun H => H)
           eq_refl).
Defined.

(** C6 as it is stated fails when a stream selected earlier has no fetch
    method: the transactions stream is selected and the client has its
    method, yet the run ends on the invoices and the schema of the
    transactions is never written. *)
Lemma schema_never_written_after_abort :
  In Scenario.transactions
     (get_selected_streams Scenario.catalog2 (state Scenario.w0)) /\
  is_Some (Scenario.client !! tap_stream_id Scenario.transactions) /\
  result (sync Scenario.registry Scenario.client Scenario.catalog2
               Scenario.start_date 3 false Scenario.w0)
  = Raise (AttributeError "paypal_invoices") /\
  List.filter (is_schema_of (tap_stream_id Scenario.transactions))
    (calls (sync Scenario.registry Scenario.client Scenario.catalog2
                 Scenario.start_date 3 false Scenario.w0)) = [].
Proof.
  split; [right; left; reflexivity|].
  split; [eexists; reflexivity|].
  split; reflexivity.
Qed.

(** ** The currently-syncing marker *)

Lemma replay_app st l1 l2 :
  replay st (l1 ++ l2) = replay (replay st l1) l2.
Proof. apply fold_left_app. Qed.

(** The log accounts for every change of the state. *)
Lemma sync_record_replay STREAMS stream r w :
  state (after (sync_record STREAMS stream r w)) =
  replay (state w) (calls (sync_record STREAMS stream r w)).
Proof.
  rewrite sync_record_run.
  destruct (truthy _); [destruct (STREAMS !! _)|]; reflexivity.
Qed.

Lemma sync_rows_replay STREAMS stream rows w :
  state (after (sync_rows STREAMS stream rows w)) =
  replay (state w) (calls (sync_rows STREAMS stream rows w)).
Proof.
  revert w. induction rows as [|r rest IH]; intros w; [reflexivity|].
  rewrite sync_rows_cons.
  pose proof (sync_record_replay STREAMS stream r w) as Hr.
  destruct (result (sync_record STREAMS stream r w)) as [[]|e];
    cbn [after calls].
  - rewrite IH, Hr.
    change (EYield (tap_stream_id stream) r :: ?l ++ ?l')
      with ((EYield (tap_stream_id stream) r :: l) ++ l').
    rewrite replay_app. reflexivity.
  - exact Hr.
Qed.

Lemma sync_stream_replay STREAMS paypal start_date catchup_days schemaless
  stream w :
  state (after (sync_stream STREAMS paypal start_date catchup_days schemaless
                            stream w)) =
  replay (state w)
    (calls (sync_stream STREAMS paypal start_date catchup_days schemaless
                        stream w)).
Proof.
  destruct (sync_stream_shape STREAMS paypal start_date catchup_days
              schemaless stream w)
    as [(_ & -> & ->)|(rows & _ & -> & ->)]; [reflexivity|].
  rewrite sync_rows_replay, replay_app. reflexivity.
Qed.

(** Calls that do not set the marker leave it as it is or clear it. *)
Lemma replay_keeps_marker id l st :
  Forall (fun e => is_set_marker e = false) l ->
  currently_syncing st = Some id \/ currently_syncing st = None ->
  currently_syncing (replay st l) = Some id \/
  currently_syncing (replay st l) = None.
Proof.
  intros Hl. revert st. induction Hl as [|e l He _ IH]; intros st Hst;
    [exact Hst|].
  cbn [replay fold_left]. apply IH.
  destruct e; try exact Hst; [discriminate He|right; reflexivity].
Qed.

(** C2: while the driver processes a stream, the marker, whenever it is set,
    names that stream: the first call made for the stream sets it, and at
    every later point of the processing of the stream, and when it ends, the
    state read off the log has the marker on that stream or cleared.  The
    marker is cleared, and the state flushed, by every bookmarked record and
    not only by the last one: after such a record the loop goes on with the
    remaining rows of the stream in a state whose marker reads as not
    syncing. *)
Theorem marker_names_stream_in_progress STREAMS paypal start_date
  catchup_days schemaless stream w :
  (exists rest,
     calls (sync_stream STREAMS paypal start_date catchup_days schemaless
                        stream w)
     = ESetCurrentlySyncing (tap_stream_id stream) :: rest) /\
  (forall p q,
     calls (sync_stream STREAMS paypal start_date catchup_days schemaless
                        stream w) = p ++ q ->
     p <> [] ->
     currently_syncing (replay (state w) p) = Some (tap_stream_id stream) \/
     currently_syncing (replay (state w) p) = None) /\
  state (after (sync_stream STREAMS paypal start_date catchup_days schemaless
                            stream w)) =
  replay (state w)
    (calls (sync_stream STREAMS paypal start_date catchup_days schemaless
                        stream w)) /\
  (forall info r rest w',
     STREAMS !! tap_stream_id stream = Some info ->
     truthy (bookmark_at (replication_key stream) r) = true ->
     currently_syncing (state (after (sync_record STREAMS stream r w')))
     = None /\
     (exists p,
        calls (sync_record STREAMS stream r w') =
        p ++ [EClearCurrentlySyncing;
              EWriteState (state (after (sync_record STREAMS stream r w')))]) /\
     sync_rows STREAMS stream (r :: rest) w' =
     mk_run
       (result (sync_rows STREAMS stream rest
                          (after (sync_record STREAMS stream r w'))))
       (after (sync_rows STREAMS stream rest
                         (after (sync_record STREAMS stream r w'))))
       (EYield (tap_stream_id stream) r ::
        calls (sync_record STREAMS stream r w') ++
        calls (sync_rows STREAMS stream rest
                         (after (sync_record STREAMS stream r w'))))).
Proof.
  destruct (sync_stream_calls STREAMS paypal start_date catchup_days
              schemaless stream w) as (tl & Hc & Htl).
  split; [eauto|]. split; [|split].
  - intros p q Hpq Hp. rewrite Hc in Hpq.
    destruct p as [|e p]; [congruence|].
    cbn [app] in Hpq. injection Hpq as <- Hrest.
    cbn [replay fold_left apply_event].
    apply replay_keeps_marker; [|left; reflexivity].
    assert (Hall : Forall (fun e => is_set_marker e = false) (p ++ q)).
    { rewrite <- Hrest. repeat constructor.
      eapply Forall_impl; [exact Htl|].
      intros e. apply fetch_event_not_marker. }
    apply Forall_app in Hall. apply Hall.
  - apply sync_stream_replay.
  - intros info r rest w' Hs Ht.
    rewrite sync_rows_cons.
    rewrite (sync_record_bookmarked STREAMS stream info r w' Hs Ht).
    cbn [result after calls state].
    split; [reflexivity|]. split; [|reflexivity].
    exists (emission stream r w' ++
            [EWriteBookmark (tap_stream_id stream) (bookmark info)
                            (bookmark_at (replication_key stream) r)]).
    rewrite <- app_assoc. reflexivity.
Qed.

Lemma marker_names_stream_in_progress_witness :
  Scenario.registry !! tap_stream_id Scenario.transactions
  = Some (mk_info "date_modified") /\
  truthy (bookmark_at (replication_key Scenario.transactions) Scenario.row1)
  = true /\
  currently_syncing
    (state (after (sync_record Scenario.registry Scenario.transactions
                     Scenario.row1
                     (mk_world (mk_state ∅ (Some "paypal_transactions"))
                               Scenario.wall_clock))))
  = None.
Proof.
  split; [reflexivity|]. split; [reflexivity|].
  exact (proj1
    (proj2 (proj2 (proj2
       (marker_names_stream_in_progress Scenario.registry Scenario.client
          Scenario.start_date 3 false Scenario.transactions Scenario.w0)))
       (mk_info "date_modified") Scenario.row1 [Scenario.row2]
       (mk_world (mk_state ∅ (Some "paypal_transactions"))
                 Scenario.wall_clock)
       eq_refl eq_refl)).
Defined.

(** The scenario of the spec, run from the empty state: two rows written,
    two bookmarks written with increasing values, the last one kept. *)
Example scenario_two_rows :
  result (sync Scenario.registry Scenario.client Scenario.catalog
               Scenario.start_date 3 false Scenario.w0) = Ret tt /\
  record_calls
    (calls (sync Scenario.registry Scenario.client Scenario.catalog
                 Scenario.start_date 3 false Scenario.w0)) =
  [("paypal_transactions", Scenario.row1);
   ("paypal_transactions", Scenario.row2)] /\
  bookmark_calls
    (calls (sync Scenario.registry Scenario.client Scenario.catalog
                 Scenario.start_date 3 false Scenario.w0)) =
  [("paypal_transactions", "date_modified", PStr "2020-01-02T00:00:00Z");
   ("paypal_transactions", "date_modified", PStr "2020-01-03T00:00:00Z")] /\
  state (after (sync Scenario.registry Scenario.client Scenario.catalog
                     Scenario.start_date 3 false Scenario.w0)) =
  mk_state
    {[ "paypal_transactions" :=
         {[ "date_modified" := PStr "2020-01-03T00:00:00Z" ]} ]}
    None.
Proof. vm_compute. auto. Qed.

(** * More properties of the driver and of the record handler *)

(** ** A proof rule for the driver

    A relation between the world before, the world after and the calls made
    holds of a run of [sync] as soon as it holds of no call at all, is kept
    by sequencing, and holds of the calls of the driver and of the loop over
    the rows of the streams concerned. *)

Section Invariant.

Variable STREAMS : gmap string stream_info.
Variable R : world -> world -> list event -> Prop.
Variable ok : CatalogEntry -> Prop.

Hypothesis R_refl : forall w, R w w [].
Hypothesis R_trans :
  forall w1 w2 w3 l1 l2, R w1 w2 l1 -> R w2 w3 l2 -> R w1 w3 (l1 ++ l2).
Hypothesis R_driver : forall w e, driver_event e = true -> R w w [e].
Hypothesis R_mark :
  forall id w, R w (mark id w) [ESetCurrentlySyncing id].
Hypothesis R_rows :
  forall stream rows w,
    ok stream ->
    R w (after (sync_rows STREAMS stream rows w))
      (calls (sync_rows STREAMS stream rows w)).

Lemma sync_stream_invariant paypal start_date catchup_days schemaless
  stream w :
  ok stream ->
  R w
    (after (sync_stream STREAMS paypal start_date catchup_days schemaless
                        stream w))
    (calls (sync_stream STREAMS paypal start_date catchup_days schemaless
                        stream w)).
Proof.
  intros Hok.
  pose proof (sync_stream_shape STREAMS paypal start_date catchup_days
                schemaless stream w) as Hshape.
  set (id := tap_stream_id stream) in *.
  assert (Hsteps :
    R w (mark id w)
      [ESetCurrentlySyncing id; EGetStreamState start_date id;
       EWriteSchema id (schema stream) (key_properties stream);
       EGetattr id]).
  { apply (R_trans w (mark id w) (mark id w) [_] [_; _; _]);
      [apply R_mark|].
    apply (R_trans _ (mark id w) _ [_] [_; _]); [by apply R_driver|].
    apply (R_trans _ (mark id w) _ [_] [_]); by apply R_driver. }
  destruct Hshape as [(_ & -> & ->)|(rows & _ & -> & ->)]; [exact Hsteps|].
  apply (R_trans w (mark id w)); [exact Hsteps|].
  apply (R_trans _ (mark id w) _ [_]); [by apply R_driver|].
  by apply R_rows.
Qed.

Lemma sync_streams_invariant paypal start_date catchup_days schemaless
  streams w :
  (forall stream, In stream streams -> ok stream) ->
  R w
    (after (for_each streams
              (sync_stream STREAMS paypal start_date catchup_days schemaless)
              w))
    (calls (for_each streams
              (sync_stream STREAMS paypal start_date catchup_days schemaless)
              w)).
Proof.
  revert w. induction streams as [|s rest IH]; intros w Hok;
    [apply R_refl|].
  rewrite for_each_cons.
  assert (Hs : R w
    (after (sync_stream STREAMS paypal start_date catchup_days schemaless
                        s w))
    (calls (sync_stream STREAMS paypal start_date catchup_days schemaless
                        s w)))
    by (apply sync_stream_invariant, Hok; left; reflexivity).
  destruct (result (sync_stream _ _ _ _ _ s w)) as [[]|e];
    cbn [after calls]; [|exact Hs].
  eapply R_trans; [exact Hs|].
  apply IH. intros s' Hs'. apply Hok. right; exact Hs'.
Qed.

Lemma sync_invariant paypal catalog start_date catchup_days schemaless w :
  (forall stream,
     In stream (get_selected_streams catalog (state w)) -> ok stream) ->
  R w
    (after (sync STREAMS paypal catalog start_date catchup_days schemaless w))
    (calls (sync STREAMS paypal catalog start_date catchup_days schemaless w)).
Proof.
  intros Hok. rewrite sync_run. cbn [after calls].
  apply (R_trans w w _ [_]); [by apply R_driver|].
  by apply sync_streams_invariant.
Qed.

End Invariant.

(** The same rule for the loop over the rows, from the record handler. *)
Lemma sync_rows_invariant STREAMS (R : world -> world -> list event -> Prop)
  stream :
  (forall w, R w w []) ->
  (forall w1 w2 w3 l1 l2, R w1 w2 l1 -> R w2 w3 l2 -> R w1 w3 (l1 ++ l2)) ->
  (forall w r, R w w [EYield (tap_stream_id stream) r]) ->
  (forall r w,
     R w (after (sync_record STREAMS stream r w))
       (calls (sync_record STREAMS stream r w))) ->
  forall rows w,
    R w (after (sync_rows STREAMS stream rows w))
      (calls (sync_rows STREAMS stream rows w)).
Proof.
  intros Hrefl Htrans Hyield Hrec rows.
  induction rows as [|r rest IH]; intros w; [apply Hrefl|].
  rewrite sync_rows_cons.
  pose proof (Hrec r w) as Hr.
  destruct (result (sync_record STREAMS stream r w)) as [[]|e];
    cbn [after calls].
  - apply (Htrans w w _ [_]); [apply Hyield|].
    eapply Htrans; [exact Hr|apply IH].
  - apply (Htrans w w _ [_]); [apply Hyield|exact Hr].
Qed.

(** ** What the record handler leaves alone *)

Lemma put_bookmark_other_stream id field v st i :
  i <> id -> bookmarks (put_bookmark id field v st) !! i = bookmarks st !! i.
Proof. intros H. cbn [put_bookmark bookmarks]. by apply lookup_insert_ne. Qed.

Lemma put_bookmark_other_field id field v st f :
  f <> field ->
  get_bookmark (put_bookmark id field v st) id f = get_bookmark st id f.
Proof.
  intros H. unfold get_bookmark. cbn [put_bookmark bookmarks].
  rewrite lookup_insert_eq. cbn. rewrite lookup_insert_ne by congruence.
  destruct (bookmarks st !! id); [reflexivity|apply lookup_empty].
Qed.

Lemma sync_record_other_stream STREAMS stream r w i :
  i <> tap_stream_id stream ->
  bookmarks (state (after (sync_record STREAMS stream r w))) !! i =
  bookmarks (state w) !! i.
Proof.
  intros H. rewrite sync_record_run.
  destruct (truthy _); [destruct (STREAMS !! _)|]; cbn [after state tick];
    try reflexivity.
  cbn [clear_marker bookmarks]. by apply put_bookmark_other_stream.
Qed.

(** X1: [sync_record] writes one entry of the state at most.  The bookmarks
    of every other stream are left as they are, and so is every field of the
    stream's own bookmark mapping other than the one the registry
    declares. *)
Theorem sync_record_frame STREAMS stream r w i f :
  (i <> tap_stream_id stream \/
   forall info,
     STREAMS !! tap_stream_id stream = Some info -> f <> bookmark info) ->
  get_bookmark (state (after (sync_record STREAMS stream r w))) i f =
  get_bookmark (state w) i f.
Proof.
  intros [Hi|Hf].
  - unfold get_bookmark. by rewrite sync_record_other_stream.
  - destruct (decide (i = tap_stream_id stream)) as [->|Hi];
      [|unfold get_bookmark; by rewrite sync_record_other_stream].
    rewrite sync_record_run.
    destruct (truthy _); [|reflexivity].
    destruct (STREAMS !! tap_stream_id stream) as [info|] eqn:Hs;
      [|reflexivity].
    cbn [after state]. unfold get_bookmark at 1. cbn [clear_marker bookmarks].
    apply (put_bookmark_other_field _ _ _ (state w)). by apply Hf.
Qed.

Lemma sync_record_frame_witness :
  (("paypal_transactions" <> tap_stream_id Scenario.transactions) \/
   forall info,
     Scenario.registry !! tap_stream_id Scenario.transactions = Some info ->
     "page" <> bookmark info) /\
  get_bookmark
    (state (after (sync_record Scenario.registry Scenario.transactions
                               Scenario.row1 Resumed.w1)))
    "paypal_transactions" "page" = Some (PInt 7).
Proof.
  assert (H : ("paypal_transactions" <> tap_stream_id Scenario.transactions)
              \/ forall info,
                Scenario.registry !! tap_stream_id Scenario.transactions
                = Some info -> "page" <> bookmark info).
  { right. intros info Hinfo. vm_compute in Hinfo.
    injection Hinfo as <-. discriminate. }
  split; [exact H|].
  exact (sync_record_frame Scenario.registry Scenario.transactions
           Scenario.row1 Resumed.w1 "paypal_transactions" "page" H).
Defined.

(** X2: a run of [sync], whether it returns or raises, leaves the bookmarks
    of every stream that is not among the selected ones as they were. *)
Theorem sync_keeps_unselected_bookmarks STREAMS paypal catalog start_date
  catchup_days schemaless w i :
  ~ In i (map tap_stream_id (get_selected_streams catalog (state w))) ->
  bookmarks
    (state (after (sync STREAMS paypal catalog start_date catchup_days
                        schemaless w))) !! i =
  bookmarks (state w) !! i.
Proof.
  intros Hi.
  apply (sync_invariant STREAMS
           (fun w w' _ => bookmarks (state w') !! i = bookmarks (state w) !! i)
           (fun stream => i <> tap_stream_id stream)).
  - reflexivity.
  - intros w1 w2 w3 _ _ H1 H2. by rewrite H2.
  - reflexivity.
  - reflexivity.
  - intros stream rows w0 Hne.
    apply (sync_rows_invariant STREAMS
             (fun w w' _ =>
                bookmarks (state w') !! i = bookmarks (state w) !! i)).
    + reflexivity.
    + intros w1 w2 w3 _ _ H1 H2. by rewrite H2.
    + reflexivity.
    + intros r w'. by apply sync_record_other_stream.
  - intros stream Hin ->. apply Hi. by apply in_map.
Qed.

Lemma sync_keeps_unselected_bookmarks_witness :
  ~ In "paypal_invoices"
       (map tap_stream_id
            (get_selected_streams Scenario.catalog (state Resumed.w1))) /\
  bookmarks
    (state (after (sync Scenario.registry Scenario.client Scenario.catalog
                        Scenario.start_date 3 false Resumed.w1)))
    !! "paypal_invoices"
  = Some {[ "date_modified" := PStr "2019-12-31T00:00:00Z" ]}.
Proof.
  assert (H : ~ In "paypal_invoices"
                   (map tap_stream_id
                        (get_selected_streams Scenario.catalog
                                              (state Resumed.w1)))).
  { intros [H|[]]. discriminate H. }
  split; [exact H|].
  exact (sync_keeps_unselected_bookmarks Scenario.registry Scenario.client
           Scenario.catalog Scenario.start_date 3 false Resumed.w1
           "paypal_invoices" H).
Defined.

(** ** Rows pulled, rows written *)

Lemma yield_calls_app l1 l2 :
  yield_calls (l1 ++ l2) = yield_calls l1 ++ yield_calls l2.
Proof. apply omap_app. Qed.

Lemma sync_record_record_calls STREAMS stream r w :
  record_calls (calls (sync_record STREAMS stream r w)) =
  [(tap_stream_id stream, r)].
Proof.
  rewrite sync_record_run.
  destruct (truthy _); [destruct (STREAMS !! _)|]; reflexivity.
Qed.

Lemma sync_record_yield_calls STREAMS stream r w :
  yield_calls (calls (sync_record STREAMS stream r w)) = [].
Proof.
  rewrite sync_record_run.
  destruct (truthy _); [destruct (STREAMS !! _)|]; reflexivity.
Qed.

Lemma sync_rows_writes_pulled STREAMS stream rows w :
  record_calls (calls (sync_rows STREAMS stream rows w)) =
  yield_calls (calls (sync_rows STREAMS stream rows w)).
Proof.
  revert w. induction rows as [|r rest IH]; intros w; [reflexivity|].
  rewrite sync_rows_cons.
  pose proof (sync_record_record_calls STREAMS stream r w) as Hr.
  pose proof (sync_record_yield_calls STREAMS stream r w) as Hy.
  destruct (result (sync_record STREAMS stream r w)) as [[]|e]; cbn [calls].
  - change (EYield (tap_stream_id stream) r :: ?l ++ ?l')
      with ([EYield (tap_stream_id stream) r] ++ l ++ l').
    rewrite !record_calls_app, !yield_calls_app, Hr, Hy, IH. reflexivity.
  - change (EYield (tap_stream_id stream) r :: ?l)
      with ([EYield (tap_stream_id stream) r] ++ l).
    rewrite !record_calls_app, !yield_calls_app, Hr, Hy. reflexivity.
Qed.

(** X3: in every run of [sync], returned or aborted, the rows written with
    [write_record] are the rows pulled out of the fetch methods, stream by
    stream and in the same order: no pulled row is dropped, not even the one
    on which the handler raises, and nothing else is written. *)
Theorem sync_writes_every_pulled_row STREAMS paypal catalog start_date
  catchup_days schemaless w :
  record_calls
    (calls (sync STREAMS paypal catalog start_date catchup_days schemaless w))
  = yield_calls
      (calls (sync STREAMS paypal catalog start_date catchup_days schemaless
                   w)).
Proof.
  apply (sync_invariant STREAMS
           (fun _ _ l => record_calls l = yield_calls l) (fun _ => True)).
  - reflexivity.
  - intros _ _ _ l1 l2 H1 H2.
    by rewrite record_calls_app, yield_calls_app, H1, H2.
  - intros _ e He. destruct e; try discriminate He; reflexivity.
  - reflexivity.
  - intros stream rows w0 _. apply sync_rows_writes_pulled.
  - done.
Qed.

Lemma record_calls_yield id r l :
  record_calls (EYield id r :: l) = record_calls l.
Proof. reflexivity. Qed.



(** ** What is flushed *)

Lemma flushed_app l1 l2 : flushed (l1 ++ l2) = flushed l1 ++ flushed l2.
Proof. apply omap_app. Qed.

(** X5: the state that [sync] sends out with [write_state] never names a
    stream as currently syncing: in every run, each flushed state has the
    marker cleared. *)
Theorem flushed_states_have_no_marker STREAMS paypal catalog start_date
  catchup_days schemaless w :
  Forall (fun st => currently_syncing st = None)
    (flushed
       (calls (sync STREAMS paypal catalog start_date catchup_days schemaless
                    w))).
Proof.
  apply (sync_invariant STREAMS
           (fun _ _ l =>
              Forall (fun st => currently_syncing st = None) (flushed l))
           (fun _ => True)).
  - constructor.
  - intros _ _ _ l1 l2 H1 H2. rewrite flushed_app. by apply Forall_app.
  - intros _ e He. destruct e; try discriminate He; constructor.
  - constructor.
  - intros stream rows w0 _.
    apply (sync_rows_invariant STREAMS
             (fun _ _ l =>
                Forall (fun st => currently_syncing st = None) (flushed l))).
    + constructor.
    + intros _ _ _ l1 l2 H1 H2. rewrite flushed_app. by apply Forall_app.
    + constructor.
    + intros r w'. rewrite sync_record_run.
      destruct (truthy _); [destruct (STREAMS !! _)|]; repeat constructor.
  - done.
Qed.

(** X6: nothing bookmarked stays unflushed.  At the end of every run of
    [sync], returned or aborted, the bookmarks of the state are those of the
    last state sent out with [write_state], or the bookmarks the run started
    with when it sent none. *)
Theorem bookmarks_are_flushed STREAMS paypal catalog start_date
  catchup_days schemaless w :
  bookmarks
    (state (after (sync STREAMS paypal catalog start_date catchup_days
                        schemaless w)))
  = bookmarks
      (default (state w)
         (last (flushed
                  (calls (sync STREAMS paypal catalog start_date
                               catchup_days schemaless w))))).
Proof.
  assert (Htrans :
    forall w1 w2 w3 l1 l2,
      bookmarks (state w2)
      = bookmarks (default (state w1) (last (flushed l1))) ->
      bookmarks (state w3)
      = bookmarks (default (state w2) (last (flushed l2))) ->
      bookmarks (state w3)
      = bookmarks (default (state w1) (last (flushed (l1 ++ l2))))).
  { intros w1 w2 w3 l1 l2 H1 H2. rewrite flushed_app, last_app.
    destruct (last (flushed l2)) as [st|]; [exact H2|].
    cbn [default] in H2. by rewrite H2. }
  apply (sync_invariant STREAMS
           (fun w w' l =>
              bookmarks (state w')
              = bookmarks (default (state w) (last (flushed l))))
           (fun _ => True)).
  - reflexivity.
  - exact Htrans.
  - intros w0 e He. destruct e; try discriminate He; reflexivity.
  - reflexivity.
  - intros stream rows w0 _.
    apply (sync_rows_invariant STREAMS
             (fun w w' l =>
                bookmarks (state w')
                = bookmarks (default (state w) (last (flushed l))))).
    + reflexivity.
    + exact Htrans.
    + reflexivity.
    + intros r w'. rewrite sync_record_run.
      destruct (truthy _); [destruct (STREAMS !! _)|]; reflexivity.
  - done.
Qed.

(** ** Extraction timestamps *)

Lemma record_times_app l1 l2 :
  record_times (l1 ++ l2) = record_times l1 ++ record_times l2.
Proof. apply omap_app. Qed.

Lemma clock_readings_app l1 l2 :
  clock_readings (l1 ++ l2) = clock_readings l1 ++ clock_readings l2.
Proof. apply omap_app. Qed.

Lemma map_seq_shift (f g : nat -> Z) (n : nat) :
  (forall k, f k = g (n + k)%nat) ->
  forall m a, map f (seq a m) = map g (seq (n + a) m).
Proof.
  intros H m. induction m as [|m IH]; intros a; [reflexivity|].
  cbn [seq map]. rewrite H, IH, Nat.add_succ_r. reflexivity.
Qed.

(** The clock relation a run keeps: [n] readings were taken, each one tags
    one record, and they are the next [n] readings of the clock. *)
Lemma clock_relation_trans (w1 w2 w3 : world) (l1 l2 : list event) :
  (exists n,
     clock_readings l1 = record_times l1 /\
     record_times l1 = map (clock w1) (seq 0 n) /\
     forall k, clock w2 k = clock w1 (n + k)%nat) ->
  (exists n,
     clock_readings l2 = record_times l2 /\
     record_times l2 = map (clock w2) (seq 0 n) /\
     forall k, clock w3 k = clock w2 (n + k)%nat) ->
  exists n,
    clock_readings (l1 ++ l2) = record_times (l1 ++ l2) /\
    record_times (l1 ++ l2) = map (clock w1) (seq 0 n) /\
    forall k, clock w3 k = clock w1 (n + k)%nat.
Proof.
  intros (n1 & Hc1 & Hr1 & Hk1) (n2 & Hc2 & Hr2 & Hk2).
  exists (n1 + n2)%nat.
  rewrite clock_readings_app, record_times_app, Hc1, Hc2.
  split; [reflexivity|]. split.
  - rewrite Hr1, Hr2, seq_app, map_app.
    rewrite (map_seq_shift (clock w2) (clock w1) n1 Hk1 n2 0%nat).
    by rewrite Nat.add_0_r.
  - intros k. by rewrite Hk2, Hk1, Nat.add_assoc.
Qed.

(** X7: each record is tagged with a clock reading of its own.  In every run
    of [sync] the wall clock is read once per record written, the reading is
    the [time_extracted] of that record, and the records carry the successive
    readings of the clock in the order in which they are written. *)
Theorem records_carry_successive_readings STREAMS paypal catalog start_date
  catchup_days schemaless w :
  clock_readings
    (calls (sync STREAMS paypal catalog start_date catchup_days schemaless w))
  = record_times
      (calls (sync STREAMS paypal catalog start_date catchup_days schemaless
                   w)) /\
  record_times
    (calls (sync STREAMS paypal catalog start_date catchup_days schemaless w))
  = map (clock w)
      (seq 0 (length
                (record_calls
                   (calls (sync STREAMS paypal catalog start_date
                                catchup_days schemaless w))))) /\
  forall k,
    clock (after (sync STREAMS paypal catalog start_date catchup_days
                       schemaless w)) k
    = clock w
        (length
           (record_calls
              (calls (sync STREAMS paypal catalog start_date catchup_days
                           schemaless w))) + k)%nat.
Proof.
  assert (Hlen : forall l, length (record_calls l) = length (record_times l)).
  { induction l as [|e l IH]; [reflexivity|].
    destruct e; cbn; try exact IH. f_equal. exact IH. }
  assert (H : exists n,
    clock_readings
      (calls (sync STREAMS paypal catalog start_date catchup_days schemaless
                   w))
    = record_times
        (calls (sync STREAMS paypal catalog start_date catchup_days
                     schemaless w)) /\
    record_times
      (calls (sync STREAMS paypal catalog start_date catchup_days schemaless
                   w))
    = map (clock w) (seq 0 n) /\
    forall k,
      clock (after (sync STREAMS paypal catalog start_date catchup_days
                         schemaless w)) k
      = clock w (n + k)%nat).
  { apply (sync_invariant STREAMS
             (fun w w' l =>
                exists n,
                  clock_readings l = record_times l /\
                  record_times l = map (clock w) (seq 0 n) /\
                  forall k, clock w' k = clock w (n + k)%nat)
             (fun _ => True)).
    - intros w0. by exists 0%nat.
    - apply clock_relation_trans.
    - intros w0 e He. exists 0%nat.
      destruct e; try discriminate He; done.
    - intros id w0. by exists 0%nat.
    - intros stream rows w0 _.
      apply (sync_rows_invariant STREAMS
               (fun w w' l =>
                  exists n,
                    clock_readings l = record_times l /\
                    record_times l = map (clock w) (seq 0 n) /\
                    forall k, clock w' k = clock w (n + k)%nat)).
      + intros w1. by exists 0%nat.
      + apply clock_relation_trans.
      + intros w1 r. by exists 0%nat.
      + intros r w1. exists 1%nat. rewrite sync_record_run.
        destruct (truthy _); [destruct (STREAMS !! _)|]; done.
    - done. }
  destruct H as (n & Hc & Hr & Hk).
  assert (Hn : length
                 (record_calls
                    (calls (sync STREAMS paypal catalog start_date
                                 catchup_days schemaless w))) = n).
  { rewrite Hlen, Hr, length_map. apply length_seq. }
  rewrite Hn. auto.
Qed.

(** ** Streams that never bookmark *)

Lemma sync_rows_all_falsy STREAMS stream rows w :
  Forall (fun r => truthy (bookmark_at (replication_key stream) r) = false)
         rows ->
  result (sync_rows STREAMS stream rows w) = Ret tt /\
  state (after (sync_rows STREAMS stream rows w)) = state w /\
  flushed (calls (sync_rows STREAMS stream rows w)) = [] /\
  record_calls (calls (sync_rows STREAMS stream rows w)) =
  map (fun r => (tap_stream_id stream, r)) rows.
Proof.
  intros Hall. revert w. induction Hall as [|r rest Hr _ IH]; intros w.
  - repeat split; reflexivity.
  - rewrite sync_rows_cons, sync_record_run, Hr. cbn [result after calls].
    destruct (IH (tick w)) as (H1 & H2 & H3 & H4).
    split; [exact H1|]. split; [exact H2|].
    rewrite record_calls_yield, record_calls_app, H4.
    change (EYield (tap_stream_id stream) r :: ?l ++ ?l')
      with ((EYield (tap_stream_id stream) r :: l) ++ l').
    rewrite flushed_app, H3. split; reflexivity.
Qed.

(** X8: the marker is not cleared at the end of a stream.  When the client
    has a method for the stream, the call binds its arguments, the generator
    ends without error and none of the rows it yields carries a truthy
    bookmark (none at all being a case of it), the processing of the stream
    returns having written every row, flushed nothing and left the bookmarks
    as they were, and the state still names the stream as currently
    syncing. *)
Theorem stream_without_bookmarks_stays_marked STREAMS (paypal : PayPal)
  start_date catchup_days schemaless stream (fetch : fetch_method) w :
  paypal !! tap_stream_id stream = Some fetch ->
  accepts fetch
          (stream_state_of (state w) start_date (tap_stream_id stream))
  = true ->
  ends_with
    (generate fetch catchup_days schemaless
       (stream_state_of (state w) start_date (tap_stream_id stream)))
  = None ->
  Forall (fun r => truthy (bookmark_at (replication_key stream) r) = false)
         (yields
            (generate fetch catchup_days schemaless
               (stream_state_of (state w) start_date
                                (tap_stream_id stream)))) ->
  result (sync_stream STREAMS paypal start_date catchup_days schemaless
                      stream w) = Ret tt /\
  state (after (sync_stream STREAMS paypal start_date catchup_days schemaless
                            stream w))
  = mk_state (bookmarks (state w)) (Some (tap_stream_id stream)) /\
  flushed (calls (sync_stream STREAMS paypal start_date catchup_days
                              schemaless stream w)) = [] /\
  record_calls (calls (sync_stream STREAMS paypal start_date catchup_days
                                   schemaless stream w))
  = map (fun r => (tap_stream_id stream, r))
        (yields
           (generate fetch catchup_days schemaless
              (stream_state_of (state w) start_date
                               (tap_stream_id stream)))).
Proof.
  intros Hp Ha He Hall. rewrite sync_stream_spec. unfold spec_stream.
  unfold stream_state_of in *. rewrite Hp, Ha, He.
  rewrite <- sync_rows_spec. cbn [result after calls].
  destruct (sync_rows_all_falsy STREAMS stream _
              (mk_world
                 (mk_state (bookmarks (state w))
                           (Some (tap_stream_id stream)))
                 (clock w)) Hall)
    as (H1 & H2 & H3 & H4).
  rewrite H1. split; [reflexivity|]. split; [exact H2|].
  rewrite flushed_app, record_calls_app. split; [exact H3|exact H4].
Qed.

Lemma stream_without_bookmarks_stays_marked_witness :
  Resumed.quiet_client !! tap_stream_id Scenario.transactions
  = Some Resumed.quiet_rows /\
  accepts Resumed.quiet_rows
          (stream_state_of (state Resumed.w1) Scenario.start_date
                           (tap_stream_id Scenario.transactions)) = true /\
  Forall (fun r => truthy (bookmark_at
                             (replication_key Scenario.transactions) r)
                   = false)
         [Scenario.row_no_key; Scenario.row_empty_key] /\
  state (after (sync_stream Scenario.registry Resumed.quiet_client
                            Scenario.start_date 3 false Scenario.transactions
                            Resumed.w1))
  = mk_state (bookmarks Resumed.earlier_state) (Some "paypal_transactions").
Proof.
  assert (H1 : Resumed.quiet_client !! tap_stream_id Scenario.transactions
               = Some Resumed.quiet_rows) by reflexivity.
  assert (H2 : accepts Resumed.quiet_rows
                 (stream_state_of (state Resumed.w1) Scenario.start_date
                                  (tap_stream_id Scenario.transactions))
               = true) by reflexivity.
  assert (H3 : Forall (fun r => truthy (bookmark_at
                         (replication_key Scenario.transactions) r) = false)
                      [Scenario.row_no_key; Scenario.row_empty_key])
    by (repeat constructor).
  split; [exact H1|]. split; [exact H2|]. split; [exact H3|].
  exact (proj1 (proj2
    (stream_without_bookmarks_stays_marked Scenario.registry
       Resumed.quiet_client Scenario.start_date 3 false
       Scenario.transactions Resumed.quiet_rows Resumed.w1 H1 H2
       eq_refl H3))).
Defined.



(** ** The order of the streams *)

Lemma schema_ids_app l1 l2 :
  schema_ids (l1 ++ l2) = schema_ids l1 ++ schema_ids l2.
Proof. apply omap_app. Qed.

Lemma marked_ids_app l1 l2 :
  marked_ids (l1 ++ l2) = marked_ids l1 ++ marked_ids l2.
Proof. apply omap_app. Qed.

Lemma fetch_events_no_schema id l :
  Forall (fun e => fetch_event id e = true) l ->
  schema_ids l = [] /\ marked_ids l = [].
Proof.
  induction 1 as [|e l He _ [IH1 IH2]]; [split; reflexivity|].
  destruct e; try discriminate He; split; assumption.
Qed.

Lemma sync_stream_schema_ids STREAMS paypal start_date catchup_days
  schemaless stream w :
  schema_ids (calls (sync_stream STREAMS paypal start_date catchup_days
                                 schemaless stream w))
  = [tap_stream_id stream] /\
  marked_ids (calls (sync_stream STREAMS paypal start_date catchup_days
                                 schemaless stream w))
  = [tap_stream_id stream].
Proof.
  destruct (sync_stream_calls STREAMS paypal start_date catchup_days
              schemaless stream w) as (tl & -> & Htl).
  destruct (fetch_events_no_schema _ _ Htl) as [H1 H2].
  split.
  - change (schema_ids ?l) with (tap_stream_id stream :: schema_ids tl).
    by rewrite H1.
  - change (marked_ids ?l) with (tap_stream_id stream :: marked_ids tl).
    by rewrite H2.
Qed.

Lemma sync_streams_schema_ids STREAMS paypal start_date catchup_days
  schemaless streams w :
  schema_ids
    (calls (for_each streams
              (sync_stream STREAMS paypal start_date catchup_days schemaless)
              w))
  = marked_ids
      (calls (for_each streams
                (sync_stream STREAMS paypal start_date catchup_days
                             schemaless) w)) /\
  schema_ids
    (calls (for_each streams
              (sync_stream STREAMS paypal start_date catchup_days schemaless)
              w))
    `prefix_of` map tap_stream_id streams /\
  (result (for_each streams
             (sync_stream STREAMS paypal start_date catchup_days schemaless)
             w) = Ret tt ->
   schema_ids
     (calls (for_each streams
               (sync_stream STREAMS paypal start_date catchup_days
                            schemaless) w))
   = map tap_stream_id streams).
Proof.
  revert w. induction streams as [|s rest IH]; intros w.
  - split; [reflexivity|]. split; [apply prefix_nil|reflexivity].
  - rewrite for_each_cons.
    destruct (sync_stream_schema_ids STREAMS paypal start_date catchup_days
                schemaless s w) as [Hs Hm].
    destruct (result (sync_stream _ _ _ _ _ s w)) as [[]|e];
      cbn [result calls map].
    + destruct (IH (after (sync_stream STREAMS paypal start_date
                             catchup_days schemaless s w)))
        as (H1 & H2 & H3).
      rewrite schema_ids_app, marked_ids_app, Hs, Hm, H1. cbn [app].
      split; [reflexivity|]. rewrite <- H1.
      split; [by apply prefix_cons|]. intros H. by rewrite H3.
    + rewrite Hs, Hm. split; [reflexivity|].
      split; [apply prefix_cons, prefix_nil|]. intros H; discriminate H.
Qed.

(** X10: the streams are started in the order of the selection and a schema
    is written for each stream started.  In every run of [sync] the schemas
    written are those of the streams marked currently syncing, in the same
    order; they are those of a prefix of the selected streams, and of all of
    them when the run returns. *)
Theorem schemas_follow_selection STREAMS paypal catalog start_date
  catchup_days schemaless w :
  schema_ids
    (calls (sync STREAMS paypal catalog start_date catchup_days schemaless w))
  = marked_ids
      (calls (sync STREAMS paypal catalog start_date catchup_days schemaless
                   w)) /\
  schema_ids
    (calls (sync STREAMS paypal catalog start_date catchup_days schemaless w))
    `prefix_of`
    map tap_stream_id (get_selected_streams catalog (state w)) /\
  (result (sync STREAMS paypal catalog start_date catchup_days schemaless w)
   = Ret tt ->
   schema_ids
     (calls (sync STREAMS paypal catalog start_date catchup_days schemaless
                  w))
   = map tap_stream_id (get_selected_streams catalog (state w))).
Proof.
  rewrite sync_run. cbn [result calls].
  apply (sync_streams_schema_ids STREAMS paypal start_date catchup_days
           schemaless (get_selected_streams catalog (state w)) w).
Qed.

Lemma schemas_follow_selection_witness :
  result (sync Scenario.registry Scenario.client Scenario.catalog
               Scenario.start_date 3 false Scenario.w0) = Ret tt /\
  schema_ids
    (calls (sync Scenario.registry Scenario.client Scenario.catalog
                 Scenario.start_date 3 false Scenario.w0))
  = ["paypal_transactions"].
Proof.
  split; [reflexivity|].
  exact (proj2 (proj2
    (schemas_follow_selection Scenario.registry Scenario.client
       Scenario.catalog Scenario.start_date 3 false Scenario.w0)) eq_refl).
Defined.

(** ** Rows with and without bookmark, mixed *)



(** ** The fetch calls *)

Lemma sync_stream_fetch_calls STREAMS (paypal : PayPal) start_date
  catchup_days schemaless streams stream w :
  In stream streams ->
  Forall (fetch_call_ok paypal streams catchup_days schemaless)
    (calls (sync_stream STREAMS paypal start_date catchup_days schemaless
                        stream w)).
Proof.
  intros Hin.
  destruct (sync_stream_shape STREAMS paypal start_date catchup_days
              schemaless stream w)
    as [(_ & _ & ->)|(rows & Hp & _ & ->)]; [repeat constructor|].
  apply Forall_app. split; [repeat constructor|].
  constructor.
  - cbn [fetch_call_ok]. split; [reflexivity|]. split; [reflexivity|].
    split; [by apply in_map|exact Hp].
  - eapply Forall_impl; [apply sync_rows_events|].
    intros e He. destruct e; try discriminate He; exact I.
Qed.

Lemma sync_streams_fetch_calls STREAMS (paypal : PayPal) start_date
  catchup_days schemaless selected streams w :
  (forall s, In s streams -> In s selected) ->
  Forall (fetch_call_ok paypal selected catchup_days schemaless)
    (calls (for_each streams
              (sync_stream STREAMS paypal start_date catchup_days schemaless)
              w)).
Proof.
  revert w. induction streams as [|s rest IH]; intros w Hin; [constructor|].
  rewrite for_each_cons.
  assert (Hs := sync_stream_fetch_calls STREAMS paypal start_date
                  catchup_days schemaless selected s w
                  (Hin s (or_introl eq_refl))).
  destruct (result (sync_stream _ _ _ _ _ s w)) as [[]|e]; cbn [calls];
    [|exact Hs].
  apply Forall_app. split; [exact Hs|].
  apply IH. intros s' Hs'. apply Hin. by right.
Qed.

(** X12: the driver calls no fetch method but those of the selected streams
    and passes the catch-up window and the schemaless flag on as it got
    them: every fetch call of a run of [sync] is for a selected stream that
    the client has a method for, with the [catchup_days] and [schemaless] of
    the run. *)
Theorem sync_fetches_selected_streams_only STREAMS (paypal : PayPal) catalog
  start_date catchup_days schemaless w :
  Forall (fetch_call_ok paypal (get_selected_streams catalog (state w))
                        catchup_days schemaless)
    (calls (sync STREAMS paypal catalog start_date catchup_days schemaless
                 w)).
Proof.
  rewrite sync_run. cbn [calls]. constructor; [exact I|].
  by apply sync_streams_fetch_calls.
Qed.
